(** * RAG career-guidance service: history windowing, chat turn, greeting
      and the command dispatcher of [backend/src/services/rag_service.py].

    The Python module is embedded shallowly.  Values decoded from JSON are a
    small inductive type, Python [str] is a sequence of code points, the
    third-party collaborators (embedding model, Chroma index, language-model
    chain, [json], [os]) are the fields of a class, and methods run in a
    state-and-exception monad over the outside world. *)

From Stdlib Require Import ZArith NArith Ascii String DecimalString List Lia.
From stdpp Require Import base option list gmap.

Local Open Scope N_scope.
#[local] Set Warnings "-register-all".

(** ** Text *)

(** A Python [str] is a sequence of Unicode code points; slicing and [len]
    count code points, so this is what [pystr] holds. *)
Abbreviation pystr := (list N).

(** Source literals are written as Rocq strings, which hold the UTF-8 bytes
    of the literal; [utf8_decode] turns them into code points. *)
Fixpoint utf8_decode (bs : list N) : list N :=
  match bs with
  | [] => []
  | b0 :: r0 =>
      if b0 <? 128 then b0 :: utf8_decode r0
      else if b0 <? 224 then
        match r0 with
        | b1 :: r1 => ((b0 mod 32) * 64 + b1 mod 64) :: utf8_decode r1
        | _ => []
        end
      else if b0 <? 240 then
        match r0 with
        | b1 :: b2 :: r2 =>
            ((b0 mod 16) * 4096 + (b1 mod 64) * 64 + b2 mod 64) :: utf8_decode r2
        | _ => []
        end
      else
        match r0 with
        | b1 :: b2 :: b3 :: r3 =>
            ((b0 mod 8) * 262144 + (b1 mod 64) * 4096 + (b2 mod 64) * 64 + b3 mod 64)
              :: utf8_decode r3
        | _ => []
        end
  end.

Definition py (s : string) : pystr :=
  utf8_decode (map N_of_ascii (list_ascii_of_string s)).

(** The line feed of the source's [\n] escapes and multi-line literals. *)
Definition nl : pystr := [10].

(** [str(i)] for a non-negative machine-independent integer. *)
Definition str_of_nat (n : nat) : pystr :=
  py (NilZero.string_of_uint (Nat.to_uint n)).

(** [sep.join(parts)] *)
Fixpoint join (sep : pystr) (parts : list pystr) : pystr :=
  match parts with
  | [] => []
  | [p] => p
  | p :: rest => p ++ sep ++ join sep rest
  end.

(** ** Values decoded from JSON *)

Inductive pyval :=
| PNone
| PBool (b : bool)
| PInt (z : Z)
| PFloat (bits : Z)
| PStr (s : pystr)
| PList (l : list pyval)
| PDict (d : gmap pystr pyval).

(** [type(v).__name__] *)
Definition type_name (v : pyval) : pystr :=
  match v with
  | PNone => py "NoneType"
  | PBool _ => py "bool"
  | PInt _ => py "int"
  | PFloat _ => py "float"
  | PStr _ => py "str"
  | PList _ => py "list"
  | PDict _ => py "dict"
  end.

(** [v == "literal"]: only a [str] compares equal to a [str]. *)
Definition py_eq_str (v : pyval) (s : pystr) : bool :=
  match v with
  | PStr t => bool_decide (t = s)
  | _ => false
  end.

(** [type(v) is int], as ingestion stores chunk indices. *)
Definition is_int (v : pyval) : bool :=
  match v with
  | PInt _ => true
  | _ => false
  end.

(** ** Exceptions *)

(** Instances of [Exception].  [KeyError] carries the [repr] of its key;
    the messages of the interpreter's own errors follow CPython 3.12. *)
Inductive exn :=
| KeyError (repr_key : pystr)
| TypeError (msg : pystr)
| AttributeError (msg : pystr)
| ValueError (msg : pystr)
| Exception (msg : pystr)
| CollaboratorError (msg : pystr).

(** [str(e)] *)
Definition exn_str (e : exn) : pystr :=
  match e with
  | KeyError k => k
  | TypeError m | AttributeError m | ValueError m
  | Exception m | CollaboratorError m => m
  end.

Inductive result (A : Type) :=
| Ok (a : A)
| Raise (e : exn).
Arguments Ok {A} a.
Arguments Raise {A} e.

Definition is_ok {A} (r : result A) : bool :=
  match r with Ok _ => true | Raise _ => false end.

Definition result_map {A B} (f : A -> B) (r : result A) : result B :=
  match r with
  | Ok a => Ok (f a)
  | Raise e => Raise e
  end.

#[global] Instance result_fmap : FMap result := @result_map.

Definition rbind {A B} (r : result A) (k : A -> result B) : result B :=
  match r with
  | Ok a => k a
  | Raise e => Raise e
  end.

(** [for x in xs: acc = body(acc, x)], stopping at the first exception. *)
Fixpoint for_each {A B} (body : B -> A -> result B) (xs : list A) (acc : B)
  : result B :=
  match xs with
  | [] => Ok acc
  | x :: rest => rbind (body acc x) (for_each body rest)
  end.

(** ** Operations of the interpreter on JSON values *)

Definition quote (s : pystr) : pystr := py "'" ++ s ++ py "'".

(** [v.get(key, dflt)]: only a [dict] has the method. *)
Definition py_get (v : pyval) (key : pystr) (dflt : pyval) : result pyval :=
  match v with
  | PDict d => Ok (default dflt (d !! key))
  | _ => Raise (AttributeError
                  (quote (type_name v) ++ py " object has no attribute 'get'"))
  end.

(** [v[key]] for a [str] key. *)
Definition py_getitem (v : pyval) (key : pystr) : result pyval :=
  match v with
  | PDict d =>
      match d !! key with
      | Some x => Ok x
      | None => Raise (KeyError (quote key))
      end
  | PList _ => Raise (TypeError (py "list indices must be integers or slices, not str"))
  | PStr _ => Raise (TypeError (py "string indices must be integers, not 'str'"))
  | _ => Raise (TypeError (quote (type_name v) ++ py " object is not subscriptable"))
  end.

(** The last [n] elements, [xs[-n:]] for [n > 0]. *)
Definition last_n {A} (n : nat) (xs : list A) : list A :=
  drop (length xs - n) xs.

(** The elements visited by [for x in v[-n:]].  Slicing a [dict] raises
    (a [KeyError] on the slice object since 3.12, a [TypeError] before). *)
Definition py_iter_last (n : nat) (v : pyval) : result (list pyval) :=
  match v with
  | PList l => Ok (last_n n l)
  | PStr s => Ok (map (fun c => PStr [c]) (last_n n s))
  | PDict _ => Raise (KeyError (py "slice(-" ++ str_of_nat n ++ py ", None, None)"))
  | _ => Raise (TypeError (quote (type_name v) ++ py " object is not subscriptable"))
  end.

(** The elements visited by [for x in v]. *)
Definition py_iter (v : pyval) : result (list pyval) :=
  match v with
  | PList l => Ok l
  | PStr s => Ok (map (fun c => PStr [c]) s)
  | PDict d => Ok (map (fun kv => PStr kv.1) (map_to_list d))
  | _ => Raise (TypeError (quote (type_name v) ++ py " object is not iterable"))
  end.

(** ** The state-and-exception monad *)

(** A computation reads and updates a state and either returns or raises. *)
Definition ST (S A : Type) : Type := S -> result A * S.

Definition ret {S A} (a : A) : ST S A := fun s => (Ok a, s).

Definition raise {S A} (e : exn) : ST S A := fun s => (Raise e, s).

Definition bind {S A B} (m : ST S A) (k : A -> ST S B) : ST S B :=
  fun s =>
    match m s with
    | (Ok a, s') => k a s'
    | (Raise e, s') => (Raise e, s')
    end.

(** [try: body except Exception as e: handler(e)].  The handler starts from
    the state the body had reached when it raised: nothing is rolled back. *)
Definition try_except {S A} (body : ST S A) (handler : exn -> ST S A) : ST S A :=
  fun s =>
    match body s with
    | (Ok a, s') => (Ok a, s')
    | (Raise e, s') => handler e s'
    end.

(** A pure step that may raise. *)
Definition lift_result {S A} (r : result A) : ST S A := fun s => (r, s).

Declare Scope st_scope.
Delimit Scope st_scope with st.
Notation "x <- m ;; k" := (bind m (fun x => k))
  (at level 100, m at next level, right associativity) : st_scope.
Notation "m ;;; k" := (bind m (fun _ => k))
  (at level 100, right associativity) : st_scope.
Notation "x <~ r ;; k" := (rbind r (fun x => k))
  (at level 100, r at next level, right associativity) : st_scope.
Local Open Scope st_scope.

(** ** Data of the service *)

(** [langchain_core.documents.Document] *)
Record Document := {
  page_content : pystr;
  metadata : gmap pystr pyval
}.

(** [HumanMessage] and [AIMessage] of [langchain_core.messages]. *)
Inductive BaseMessage :=
| HumanMessage (content : pystr)
| AIMessage (content : pystr).

(** What the chain hands to [prompt | llm | StrOutputParser()]: the values of
    the four template inputs. *)
Record GenerationRequest := {
  req_context : pystr;
  req_question : pystr;
  req_language : pyval;
  req_chat_history : list BaseMessage
}.

(** An entry of the [sources] list of a chat result. *)
Record Source := {
  title : pyval;
  chunk_index : pyval;
  snippet : pystr
}.

(** The dictionary returned by [chat] and [generate_initial_greeting];
    [None] is Python's [None]. *)
Record ChatResult := {
  response : option pystr;
  sources : list Source;
  error : option pystr
}.

(** The objects written to standard output, one per line. *)
Inductive Response :=
| Success_message (message : pystr)
| Success_data (data : ChatResult)
| Error_message (message : pystr).


(** Calls that leave the process, as a test seam records them. *)
Inductive event :=
| EvRetrieve (question : pystr) (outcome : result (list Document))
| EvGenerate (req : GenerationRequest) (outcome : result pyval).

Definition is_retrieve (ev : event) : bool :=
  match ev with EvRetrieve _ _ => true | EvGenerate _ _ => false end.

Definition event_failed (ev : event) : bool :=
  match ev with
  | EvRetrieve _ r => negb (is_ok r)
  | EvGenerate _ r => negb (is_ok r)
  end.

(** ** Collaborators *)

(** Everything the module imports and does not define: the interpreter's
    [str] on values that are not text, [str.strip], [json.loads], the file
    system, the splitter, the embedding model, the Chroma index and the
    language-model chain.  [world] is the state outside the process (disk,
    network, model servers); a call may change it, and may raise. *)
Class Collaborators := {
  world : Type;
  Embeddings : Type;
  Chroma : Type;
  ChatModel : Type;
  py_str : pyval -> pystr;
  str_strip : pystr -> pystr;
  json_loads : pystr -> result pyval;
  split_text : nat -> nat -> pystr -> list pystr;
  HuggingFaceEmbeddings : pystr -> world -> result Embeddings * world;
  persist_dir_populated : pyval -> world -> result bool * world;
  Chroma_load : pyval -> Embeddings -> world -> result Chroma * world;
  load_json_file : pyval -> world -> result pyval * world;
  Chroma_from_documents :
    list Document -> Embeddings -> pyval -> world -> result Chroma * world;
  ChatGroq : world -> result ChatModel * world;
  ChatGoogleGenerativeAI : world -> result ChatModel * world;
  retriever_query :
    Chroma -> nat -> pystr -> world -> result (list Document) * world;
  prompt_llm_parse :
    ChatModel -> GenerationRequest -> world -> result pyval * world
}.

Section Service.
Context `{collaborators : Collaborators}.

(** The outside world together with the record of the retrieval and
    generation calls made so far. *)
Record World := {
  outside : world;
  trace : list event
}.

(** A call to a collaborator that the seam does not record. *)
Definition outside_call {A} (f : world -> result A * world) : ST World A :=
  fun W =>
    let '(r, w') := f (outside W) in
    (r, {| outside := w'; trace := trace W |}).

(** A call to a collaborator, recorded with its outcome. *)
Definition recorded_call {A} (f : world -> result A * world)
    (ev : result A -> event) : ST World A :=
  fun W =>
    let '(r, w') := f (outside W) in
    (r, {| outside := w'; trace := trace W ++ [ev r] |}).

(** [x if isinstance(x, str) else str(x)]; also what an f-string
    substitutes for [{x}]. *)
Definition as_text (v : pyval) : pystr :=
  match v with
  | PStr s => s
  | _ => py_str v
  end.

(** *** Configuration *)

Definition CHUNK_SIZE : nat := 512.
Definition CHUNK_OVERLAP : nat := 150.

(** *** class RAGChatService *)

(** The attributes set by [__init__].  [retriever] is [vectordb] queried with
    [k = 3], and [chain] is built from [retriever] and [llm]; neither holds
    state of its own. *)
Record RAGChatService := {
  provider : pyval;
  careers_json_path : pyval;
  chroma_persist_dir : pyval;
  embeddings : Embeddings;
  vectordb : Chroma;
  llm : ChatModel
}.

(** The inner loop of [_json_to_docs]: one [Document] per chunk. *)
Definition chunk_docs (item : pyval) (chunks : list pystr)
    (docs : list Document) : result (list Document) :=
  for_each
    (fun docs ich =>
       source_id <~ py_getitem item (py "id") ;;
       title <~ py_getitem item (py "title") ;;
       Ok (docs ++ [ {| page_content := ich.2;
                        metadata :=
                          <[py "source_id" := source_id]>
                            (<[py "title" := title]>
                               {[ py "chunk_index" := PInt (Z.of_nat ich.1) ]}) |} ]))
    (imap pair chunks) docs.

Definition _json_to_docs (items : pyval) : result (list Document) :=
  items <~ py_iter items ;;
  for_each
    (fun docs item =>
       title <~ py_getitem item (py "title") ;;
       content <~ py_getitem item (py "content") ;;
       let combined := as_text title ++ nl ++ nl ++ as_text content in
       let chunks := split_text CHUNK_SIZE CHUNK_OVERLAP combined in
       chunk_docs item chunks docs)
    items [].

Definition _init_vectordb (careers_json_path chroma_persist_dir : pyval)
    (embeddings : Embeddings) : ST World Chroma :=
  populated <- outside_call (persist_dir_populated chroma_persist_dir) ;;
  if (populated : bool) then
    outside_call (Chroma_load chroma_persist_dir embeddings)
  else
    items <- outside_call (load_json_file careers_json_path) ;;
    docs <- lift_result (_json_to_docs items) ;;
    outside_call (Chroma_from_documents docs embeddings chroma_persist_dir).

Definition _init_llm (provider : pyval) : ST World ChatModel :=
  if py_eq_str provider (py "groq") then outside_call ChatGroq
  else if py_eq_str provider (py "google") then outside_call ChatGoogleGenerativeAI
  else raise (ValueError (py "Unknown provider: " ++ as_text provider)).

(** [RAGChatService(careers_json_path, chroma_persist_dir, provider)] *)
Definition __init__ (careers_json_path chroma_persist_dir provider : pyval)
    : ST World RAGChatService :=
  embeddings <- outside_call (HuggingFaceEmbeddings (py "BAAI/bge-m3")) ;;
  vectordb <- _init_vectordb careers_json_path chroma_persist_dir embeddings ;;
  llm <- _init_llm provider ;;
  ret {| provider := provider;
         careers_json_path := careers_json_path;
         chroma_persist_dir := chroma_persist_dir;
         embeddings := embeddings;
         vectordb := vectordb;
         llm := llm |}.

(** [self.retriever.invoke(question)] *)
Definition retriever_invoke (self : RAGChatService) (question : pystr)
    : ST World (list Document) :=
  recorded_call (retriever_query (vectordb self) 3 question) (EvRetrieve question).

Definition doc_title (doc : Document) : pyval :=
  default (PStr (py "Unknown")) (metadata doc !! py "title").

Definition format_docs (docs : list Document) : pystr :=
  match docs with
  | [] => py "No relevant information found."
  | _ =>
      let formatted :=
        fold_left
          (fun formatted idoc =>
             formatted ++
               [py "[Source " ++ str_of_nat (S idoc.1) ++ py ": "
                  ++ as_text (doc_title idoc.2) ++ py "]" ++ nl
                  ++ page_content idoc.2])
          (imap pair docs) [] in
      join (nl ++ nl ++ py "---" ++ nl ++ nl) formatted
  end.

Definition get_context (self : RAGChatService) (question : pystr) : ST World pystr :=
  docs <- retriever_invoke self question ;;
  ret (format_docs docs).

(** [self.chain.invoke({"question": .., "chat_history": .., "language": ..})]:
    the context is computed by [get_context], then the prompt, the model and
    the output parser run. *)
Definition chain_invoke (self : RAGChatService) (question : pystr)
    (chat_history : list BaseMessage) (language : pyval) : ST World pyval :=
  context <- get_context self question ;;
  let req := {| req_context := context;
                req_question := question;
                req_language := language;
                req_chat_history := chat_history |} in
  recorded_call (prompt_llm_parse (llm self) req) (EvGenerate req).

(** The body of the loop over [chat_history[-10:]]. *)
Definition history_turn (lc_history : list BaseMessage) (msg : pyval)
    : result (list BaseMessage) :=
  content <~ py_get msg (py "content") (PStr (py "")) ;;
  let content := as_text content in
  role <~ py_getitem msg (py "role") ;;
  if py_eq_str role (py "user") then Ok (lc_history ++ [HumanMessage content])
  else
    role' <~ py_getitem msg (py "role") ;;
    if py_eq_str role' (py "assistant") then Ok (lc_history ++ [AIMessage content])
    else Ok lc_history.

Definition lc_history_of (chat_history : pyval) : result (list BaseMessage) :=
  window <~ py_iter_last 10 chat_history ;;
  for_each history_turn window [].

Definition source_of (doc : Document) : Source :=
  {| title := doc_title doc;
     chunk_index := default (PInt 0) (metadata doc !! py "chunk_index");
     snippet := take 250 (page_content doc) |}.

(** [chat(self, message, chat_history, language)].  The handler also writes
    the message to standard error, which is not modelled. *)
Definition chat (self : RAGChatService) (message chat_history language : pyval)
    : ST World ChatResult :=
  try_except
    (let message := as_text message in
     lc_history <- lift_result (lc_history_of chat_history) ;;
     docs <- retriever_invoke self message ;;
     response <- chain_invoke self message lc_history language ;;
     let response := as_text response in
     let sources :=
       fold_left (fun sources doc => sources ++ [source_of doc]) (take 4 docs) [] in
     ret {| response := Some response; sources := sources; error := None |})
    (fun e =>
       let error_msg := exn_str e in
       ret {| response := None; sources := []; error := Some error_msg |}).

(** *** Greeting *)

Definition lang_instructions : gmap pystr pystr :=
  list_to_map
    [ (py "en", py "Generate in English");
      (py "hi", py "Generate in Hindi (हिंदी में जवाब दें)");
      (py "te", py "Generate in Telugu (తెలుగులో సమాధానం ఇవ్వండి)");
      (py "ta", py "Generate in Tamil (தமிழில் பதிலளிக்கவும்)");
      (py "mr", py "Generate in Marathi (मराठीत उत्तर द्या)");
      (py "bn", py "Generate in Bengali (বাংলায় উত্তর দিন)") ].

(** [lang_instructions.get(language, "Generate in English")]: a key that is
    not hashable raises, any other key that is not in the table gives the
    default. *)
Definition lang_instruction_of (language : pyval) : result pystr :=
  match language with
  | PStr code => Ok (default (py "Generate in English") (lang_instructions !! code))
  | PList _ => Raise (TypeError (py "unhashable type: 'list'"))
  | PDict _ => Raise (TypeError (py "unhashable type: 'dict'"))
  | _ => Ok (py "Generate in English")
  end.

Definition greeting_prompt (lang_instruction : pystr) (assessment_summary : pyval)
    : pystr :=
  py "Based on this student's assessment results, generate a warm, encouraging greeting that:" ++ nl
  ++ py "1. Welcomes them to the career guidance chat" ++ nl
  ++ py "2. Briefly acknowledges their assessment results" ++ nl
  ++ py "3. Invites them to ask questions about their career recommendations" ++ nl
  ++ py "4. Is age-appropriate for students aged 13-15" ++ nl
  ++ nl
  ++ lang_instruction ++ nl
  ++ nl
  ++ py "Assessment Summary:" ++ nl
  ++ as_text assessment_summary ++ nl
  ++ nl
  ++ py "Keep the greeting concise (2-3 sentences) and friendly.".

Definition fallback_greeting : pystr :=
  py "Hello! I'm your career guidance assistant. I'm here to help you explore your career options based on your assessment results. What would you like to know?".

Definition generate_initial_greeting (self : RAGChatService)
    (assessment_summary language : pyval) : ST World ChatResult :=
  try_except
    (lang_instruction <- lift_result (lang_instruction_of language) ;;
     let greeting_prompt := greeting_prompt lang_instruction assessment_summary in
     result <- chat self (PStr greeting_prompt) (PList []) language ;;
     ret result)
    (fun e =>
       ret {| response := Some fallback_greeting;
              sources := [];
              error := Some (exn_str e) |}).

(** *** main *)

(** The variables of [main]: the service instance ([None] until an
    [initialize] succeeds) and the lines printed so far. *)
Record Process := {
  rag_service : option RAGChatService;
  stdout : list Response
}.

Definition in_world {A} (m : ST World A) : ST (Process * World) A :=
  fun s =>
    let '(r, W') := m s.2 in
    (r, (s.1, W')).

(** [print(safe_json_dumps(obj), flush=True)] *)
Definition print (obj : Response) : ST (Process * World) unit :=
  fun s =>
    (Ok tt, ({| rag_service := rag_service s.1; stdout := stdout s.1 ++ [obj] |}, s.2)).

(** [rag_service = svc] *)
Definition assign_rag_service (svc : RAGChatService) : ST (Process * World) unit :=
  fun s =>
    (Ok tt, ({| rag_service := Some svc; stdout := stdout s.1 |}, s.2)).

Definition read_rag_service : ST (Process * World) (option RAGChatService) :=
  fun s => (Ok (rag_service s.1), s).

Definition not_initialized : pystr :=
  py "Service not initialized. Call 'initialize' first.".

(** The body of the [try] in the loop of [main], after [json.loads]. *)
Definition dispatch (input_data : pyval) : ST (Process * World) unit :=
  command <- lift_result (py_get input_data (py "command") PNone) ;;
  if py_eq_str command (py "initialize") then
    careers_json <- lift_result (py_get input_data (py "careers_json_path") PNone) ;;
    chroma_dir <- lift_result (py_get input_data (py "chroma_persist_dir") PNone) ;;
    provider <- lift_result (py_get input_data (py "provider") (PStr (py "google"))) ;;
    svc <- in_world (__init__ careers_json chroma_dir provider) ;;
    assign_rag_service svc ;;;
    print (Success_message (py "RAG service initialized"))
  else if py_eq_str command (py "chat") then
    message <- lift_result (py_get input_data (py "message") PNone) ;;
    chat_history <- lift_result (py_get input_data (py "chat_history") (PList [])) ;;
    language <- lift_result (py_get input_data (py "language") (PStr (py "en"))) ;;
    current <- read_rag_service ;;
    match current with
    | None => raise (Exception not_initialized)
    | Some svc =>
        result <- in_world (chat svc message chat_history language) ;;
        print (Success_data result)
    end
  else if py_eq_str command (py "greeting") then
    assessment_summary <- lift_result (py_get input_data (py "assessment_summary") PNone) ;;
    language <- lift_result (py_get input_data (py "language") (PStr (py "en"))) ;;
    current <- read_rag_service ;;
    match current with
    | None => raise (Exception not_initialized)
    | Some svc =>
        result <- in_world (generate_initial_greeting svc assessment_summary language) ;;
        print (Success_data result)
    end
  else
    print (Error_message (py "Unknown command: " ++ as_text command)).

(** One iteration of [for line in sys.stdin]. *)
Definition handle_line (line : pystr) : ST (Process * World) unit :=
  let line := str_strip line in
  match line with
  | [] => ret tt
  | _ =>
      try_except
        (input_data <- lift_result (json_loads line) ;;
         dispatch input_data)
        (fun e => print (Error_message (exn_str e)))
  end.

Fixpoint main_loop (lines : list pystr) : ST (Process * World) unit :=
  match lines with
  | [] => ret tt
  | line :: rest => handle_line line ;;; main_loop rest
  end.

(** [main()]: [rag_service = None], then the loop. *)
Definition main (lines : list pystr) (W : World) : result unit * (Process * World) :=
  main_loop lines ({| rag_service := None; stdout := [] |}, W).

End Service.

(** ** What the specification says about history windowing *)

Section Windowing.
Context `{collaborators : Collaborators}.

(** A history element the loop can process: an object with a ["role"] key. *)
Definition has_role (msg : pyval) : bool :=
  match msg with
  | PDict d => bool_decide (is_Some (d !! py "role"))
  | _ => false
  end.

(** The turn an element stands for: role ["user"] is a user turn, role
    ["assistant"] an assistant turn, with the content coerced to text (empty
    when the key is absent); any other role stands for no turn. *)
Definition normalized_turn (msg : pyval) : option BaseMessage :=
  match msg with
  | PDict d =>
      let content := as_text (default (PStr (py "")) (d !! py "content")) in
      match d !! py "role" with
      | Some role =>
          if py_eq_str role (py "user") then Some (HumanMessage content)
          else if py_eq_str role (py "assistant") then Some (AIMessage content)
          else None
      | None => None
      end
  | _ => None
  end.

(** The windowed history: the turns of the last ten elements, in order. *)
Definition windowed_history (chat_history : list pyval) : list BaseMessage :=
  omap normalized_turn (last_n 10 chat_history).

End Windowing.

(** ** Observing a chat turn *)

Section Observations.
Context `{collaborators : Collaborators}.

(** The calls recorded between two worlds of one run. *)
Definition turn_events (W W' : World) : list event :=
  drop (length (trace W)) (trace W').

Definition retrieval_count (evs : list event) : nat :=
  length (filter (fun ev => is_retrieve ev = true) evs).

(** The result of a turn that failed with [e]. *)
Definition failed_result (e : exn) : ChatResult :=
  {| response := None; sources := []; error := Some (exn_str e) |}.

(** The result of a turn whose model output is [out], with the sources taken
    from [docs]. *)
Definition answered_result (out : pyval) (docs : list Document) : ChatResult :=
  {| response := Some (as_text out);
     sources := source_of <$> take 4 docs;
     error := None |}.

(** The request built from the documents [docs] that [get_context] got. *)
Definition request (question : pystr) (language : pyval)
    (lc_history : list BaseMessage) (docs : list Document) : GenerationRequest :=
  {| req_context := format_docs docs;
     req_question := question;
     req_language := language;
     req_chat_history := lc_history |}.

(** The five ways a turn can go, with the calls it records and its result. *)
Inductive chat_turn (question : pystr) (language chat_history : pyval)
  : list event -> ChatResult -> Prop :=
| turn_history_failed e :
    lc_history_of chat_history = Raise e ->
    chat_turn question language chat_history [] (failed_result e)
| turn_sources_failed lc e :
    lc_history_of chat_history = Ok lc ->
    chat_turn question language chat_history
      [EvRetrieve question (Raise e)] (failed_result e)
| turn_context_failed lc docs e :
    lc_history_of chat_history = Ok lc ->
    chat_turn question language chat_history
      [EvRetrieve question (Ok docs); EvRetrieve question (Raise e)]
      (failed_result e)
| turn_generation_failed lc docs docs' e :
    lc_history_of chat_history = Ok lc ->
    chat_turn question language chat_history
      [EvRetrieve question (Ok docs); EvRetrieve question (Ok docs');
       EvGenerate (request question language lc docs') (Raise e)]
      (failed_result e)
| turn_answered lc docs docs' out :
    lc_history_of chat_history = Ok lc ->
    chat_turn question language chat_history
      [EvRetrieve question (Ok docs); EvRetrieve question (Ok docs');
       EvGenerate (request question language lc docs') (Ok out)]
      (answered_result out docs).

(** A retrieved chunk whose stored chunk index, when present, is an integer,
    as [_json_to_docs] stores it. *)
Definition chunk_index_stored_as_int (doc : Document) : Prop :=
  match metadata doc !! py "chunk_index" with
  | Some v => is_int v = true
  | None => True
  end.


Definition english_instruction : pystr := py "Generate in English".

(** The three fields an [initialize] command passes to the constructor. *)
Definition init_args (d : gmap pystr pyval) : pyval * pyval * pyval :=
  (default PNone (d !! py "careers_json_path"),
   default PNone (d !! py "chroma_persist_dir"),
   default (PStr (py "google")) (d !! py "provider")).

(** The three fields a [chat] command passes to [chat]. *)
Definition chat_args (d : gmap pystr pyval) : pyval * pyval * pyval :=
  (default PNone (d !! py "message"),
   default (PList []) (d !! py "chat_history"),
   default (PStr (py "en")) (d !! py "language")).


(** The fixed text of the greeting prompt before the instruction, and after
    the summary. *)
Definition greeting_preamble : pystr :=
  py "Based on this student's assessment results, generate a warm, encouraging greeting that:" ++ nl
  ++ py "1. Welcomes them to the career guidance chat" ++ nl
  ++ py "2. Briefly acknowledges their assessment results" ++ nl
  ++ py "3. Invites them to ask questions about their career recommendations" ++ nl
  ++ py "4. Is age-appropriate for students aged 13-15" ++ nl
  ++ nl.

Definition greeting_closing : pystr :=
  nl ++ nl ++ py "Keep the greeting concise (2-3 sentences) and friendly.".

End Observations.

(** ** Ingestion and context, record by record *)

Section Ingestion.
Context `{collaborators : Collaborators}.

(** The three fields ingestion reads from a corpus record. *)
Definition record_fields (item : pyval) : option (pyval * pyval * pyval) :=
  match item with
  | PDict d =>
      match d !! py "id", d !! py "title", d !! py "content" with
      | Some source_id, Some title, Some content => Some (source_id, title, content)
      | _, _, _ => None
      end
  | _ => None
  end.

(** The chunks of a record: its title and content joined by a blank line
    and split. *)
Definition record_chunks (title content : pyval) : list pystr :=
  split_text CHUNK_SIZE CHUNK_OVERLAP (as_text title ++ nl ++ nl ++ as_text content).

(** The document stored for chunk number [i] of a record. *)
Definition chunk_document (source_id title : pyval) (i : nat) (ch : pystr)
    : Document :=
  {| page_content := ch;
     metadata :=
       <[py "source_id" := source_id]>
         (<[py "title" := title]> {[ py "chunk_index" := PInt (Z.of_nat i) ]}) |}.

Definition documents_of_record (r : pyval * pyval * pyval) : list Document :=
  imap (chunk_document r.1.1 r.1.2) (record_chunks r.1.2 r.2).

(** One block of the prompt context. *)
Definition source_block (n : nat) (doc : Document) : pystr :=
  py "[Source " ++ str_of_nat n ++ py ": " ++ as_text (doc_title doc) ++ py "]"
    ++ nl ++ page_content doc.

Definition context_separator : pystr := nl ++ nl ++ py "---" ++ nl ++ nl.

Definition generation_count (evs : list event) : nat :=
  length (filter (fun ev => is_retrieve ev = false) evs).

(** The lines of the input that are not blank. *)
Definition commands (lines : list pystr) : list pystr :=
  filter (fun line => str_strip line <> []) lines.

(** [input_data.get("command")] *)
Definition command_of (d : gmap pystr pyval) : pyval :=
  default PNone (d !! py "command").

(** The two fields a [greeting] command passes on. *)
Definition greeting_args (d : gmap pystr pyval) : pyval * pyval :=
  (default PNone (d !! py "assessment_summary"),
   default (PStr (py "en")) (d !! py "language")).

(** The variables of [main] after one more response. *)
Definition printed (p : Process) (r : Response) : Process :=
  {| rag_service := rag_service p; stdout := stdout p ++ [r] |}.

(** What every call of a turn must carry. *)
Definition carries (question : pystr) (language : pyval) (ev : event) : Prop :=
  match ev with
  | EvRetrieve q _ => q = question
  | EvGenerate req _ => req_question req = question /\ req_language req = language
  end.

End Ingestion.

(** ** Test doubles

    A scripted set of collaborators on which the model runs: each retrieval
    and each generation takes its outcome from a script, and falls back to a
    fixed answer when the script is exhausted. *)

Module Toy.

Record Script := {
  retrievals : list (result (list Document));
  generations : list (result pyval)
}.

Definition doctor_doc : Document :=
  {| page_content := py "Doctor" ++ nl ++ nl ++ py "Doctors diagnose and treat illness.";
     metadata :=
       <[py "source_id" := PInt 1]>
         (<[py "title" := PStr (py "Doctor")]> {[ py "chunk_index" := PInt 0 ]}) |}.


Definition whitespace : list N := [32; 9; 10; 11; 12; 13].

Fixpoint lstrip (s : pystr) : pystr :=
  match s with
  | [] => []
  | c :: rest => if bool_decide (c ∈ whitespace) then lstrip rest else s
  end.

Definition rstrip (s : pystr) : pystr := rev (lstrip (rev s)).

(** Enough of [str] for the values the examples use. *)
Definition str (v : pyval) : pystr :=
  match v with
  | PNone => py "None"
  | PBool true => py "True"
  | PBool false => py "False"
  | PInt z => py (NilZero.string_of_int (Z.to_int z))
  | PFloat _ => py "nan"
  | PStr s => s
  | PList _ => py "[...]"
  | PDict _ => py "{...}"
  end.

Definition dq : pystr := [34].

(** A JSON string literal. *)
Definition js (s : string) : pystr := dq ++ py s ++ dq.

Definition field (k v : string) : pystr := js k ++ py ": " ++ js v.

Definition chat_line : pystr :=
  py "{" ++ field "command" "chat" ++ py ", "
    ++ field "message" "What does a doctor do?" ++ py "}" ++ nl.

Definition greeting_line : pystr :=
  py "{" ++ field "command" "greeting" ++ py ", "
    ++ field "assessment_summary" "Realistic, Investigative" ++ py ", "
    ++ field "language" "hi" ++ py "}" ++ nl.

Definition init_line (provider : string) : pystr :=
  py "{" ++ field "command" "initialize" ++ py ", "
    ++ field "careers_json_path" "careers_cleaned.json" ++ py ", "
    ++ field "chroma_persist_dir" "chroma_data_full" ++ py ", "
    ++ field "provider" provider ++ py "}" ++ nl.

Definition obj (fields : list (string * string)) : pyval :=
  PDict (list_to_map (map (fun kv => (py kv.1, PStr (py kv.2))) fields)).

(** [json.loads] on the lines above; any other text is not JSON here. *)
Definition loads_table : list (pystr * pyval) :=
  [ (rstrip chat_line,
     obj [("command", "chat"); ("message", "What does a doctor do?")]);
    (rstrip greeting_line,
     obj [("command", "greeting");
          ("assessment_summary", "Realistic, Investigative");
          ("language", "hi")]);
    (rstrip (init_line "google"),
     obj [("command", "initialize");
          ("careers_json_path", "careers_cleaned.json");
          ("chroma_persist_dir", "chroma_data_full");
          ("provider", "google")]);
    (rstrip (init_line "openai"),
     obj [("command", "initialize");
          ("careers_json_path", "careers_cleaned.json");
          ("chroma_persist_dir", "chroma_data_full");
          ("provider", "openai")]) ]%string.

Definition loads (line : pystr) : result pyval :=
  match list_find (fun kv => kv.1 = line) loads_table with
  | Some (_, kv) => Ok kv.2
  | None => Raise (ValueError (py "Expecting value: line 1 column 1 (char 0)"))
  end.

Definition corpus : pyval :=
  PList [ PDict (list_to_map
                   [ (py "id", PInt 1);
                     (py "title", PStr (py "Doctor"));
                     (py "content", PStr (py "Doctors diagnose and treat illness.")) ]) ].

Definition scripted_retrieval (w : Script) : result (list Document) * Script :=
  match retrievals w with
  | [] => (Ok [doctor_doc], w)
  | r :: rest => (r, {| retrievals := rest; generations := generations w |})
  end.

Definition scripted_generation (w : Script) : result pyval * Script :=
  match generations w with
  | [] => (Ok (PStr (py "Doctors diagnose and treat illness.")), w)
  | r :: rest => (r, {| retrievals := retrievals w; generations := rest |})
  end.

Definition doubles : Collaborators :=
  {| world := Script;
     Embeddings := unit;
     Chroma := unit;
     ChatModel := unit;
     py_str := str;
     str_strip := fun s => rstrip (lstrip s);
     json_loads := loads;
     split_text := fun _ _ s => match s with [] => [] | _ => [s] end;
     HuggingFaceEmbeddings := fun _ w => (Ok tt, w);
     persist_dir_populated := fun _ w => (Ok false, w);
     Chroma_load := fun _ _ w => (Ok tt, w);
     load_json_file := fun _ w => (Ok corpus, w);
     Chroma_from_documents := fun _ _ _ w => (Ok tt, w);
     ChatGroq := fun w => (Ok tt, w);
     ChatGoogleGenerativeAI := fun w => (Ok tt, w);
     retriever_query := fun _ _ _ => scripted_retrieval;
     prompt_llm_parse := fun _ _ => scripted_generation |}.

#[local] Existing Instance doubles.

Definition service : RAGChatService :=
  {| provider := PStr (py "google");
     careers_json_path := PStr (py "careers_cleaned.json");
     chroma_persist_dir := PStr (py "chroma_data_full");
     embeddings := tt;
     vectordb := tt;
     llm := tt |}.

(** A world in which every call succeeds with its fixed answer. *)
Definition quiet : World :=
  {| outside := {| retrievals := []; generations := [] |}; trace := [] |}.

(** A world whose script fixes the outcomes of the next calls. *)
Definition scripted (rs : list (result (list Document)))
    (gs : list (result pyval)) : World :=
  {| outside := {| retrievals := rs; generations := gs |}; trace := [] |}.

Definition user_msg (content : string) : pyval :=
  obj [("role", "user"); ("content", content)]%string.

(** The fields of a history element that has no role. *)
Definition no_role : gmap pystr pyval :=
  {[ py "content" := PStr (py "hello") ]}.

(** Eleven elements: one without a role, then ten well-formed ones. *)
Definition stale_history : list pyval :=
  PDict no_role :: replicate 10 (user_msg "What does a doctor do?").

Definition question : pyval := PStr (py "What does a doctor do?").

Definition index_down : exn := CollaboratorError (py "index unavailable").

Definition unknown_openai : exn := ValueError (py "Unknown provider: openai").


Definition init_fields (provider : string) : gmap pystr pyval :=
  list_to_map [ (py "command", PStr (py "initialize"));
                (py "careers_json_path", PStr (py "careers_cleaned.json"));
                (py "chroma_persist_dir", PStr (py "chroma_data_full"));
                (py "provider", PStr (py provider)) ].

(** Corpus records: two well-formed ones, one without a title, and one
    without an id whose title and content are empty. *)
Definition doctor_record : pyval :=
  PDict (list_to_map
           [ (py "id", PInt 1);
             (py "title", PStr (py "Doctor"));
             (py "content", PStr (py "Doctors diagnose and treat illness.")) ]).

Definition nurse_record : pyval :=
  PDict (list_to_map
           [ (py "id", PInt 2);
             (py "title", PStr (py "Nurse"));
             (py "content", PStr (py "Nurses care for patients.")) ]).

Definition doctor_fields : pyval * pyval * pyval :=
  (PInt 1, PStr (py "Doctor"), PStr (py "Doctors diagnose and treat illness.")).

Definition nurse_fields : pyval * pyval * pyval :=
  (PInt 2, PStr (py "Nurse"), PStr (py "Nurses care for patients.")).

Definition untitled : gmap pystr pyval :=
  list_to_map [ (py "id", PInt 3); (py "content", PStr (py "No heading.")) ].

Definition blank : gmap pystr pyval :=
  list_to_map [ (py "title", PStr []); (py "content", PStr []) ].

(** A splitter that, like the real one, yields no chunk for blank text. *)
Definition split_nonblank (s : pystr) : list pystr :=
  if forallb (fun c => bool_decide (c ∈ whitespace)) s then [] else [s].

Definition reset_line : pystr :=
  py "{" ++ field "command" "reset" ++ py "}" ++ nl.

Definition reset_fields : gmap pystr pyval :=
  {[ py "command" := PStr (py "reset") ]}.

Definition loads_more (line : pystr) : result pyval :=
  if bool_decide (line = rstrip reset_line) then Ok (PDict reset_fields)
  else loads line.

Definition not_json : exn :=
  ValueError (py "Expecting value: line 1 column 1 (char 0)").

(** A second set of collaborators: the index directory "chroma_data_full"
    is already populated, blank text splits into nothing, and the decoder
    knows one more line. *)
Definition curated : Collaborators :=
  {| world := Script;
     Embeddings := unit;
     Chroma := unit;
     ChatModel := unit;
     py_str := str;
     str_strip := fun s => rstrip (lstrip s);
     json_loads := loads_more;
     split_text := fun _ _ s => split_nonblank s;
     HuggingFaceEmbeddings := fun _ w => (Ok tt, w);
     persist_dir_populated :=
       fun dir w => (Ok (py_eq_str dir (py "chroma_data_full")), w);
     Chroma_load := fun _ _ w => (Ok tt, w);
     load_json_file := fun _ w => (Ok corpus, w);
     Chroma_from_documents := fun _ _ _ w => (Ok tt, w);
     ChatGroq := fun w => (Ok tt, w);
     ChatGoogleGenerativeAI := fun w => (Ok tt, w);
     retriever_query := fun _ _ _ => scripted_retrieval;
     prompt_llm_parse := fun _ _ => scripted_generation |}.

Definition still : @World curated :=
  @Build_World curated {| retrievals := []; generations := [] |} [].

Definition ten_questions : list pyval :=
  replicate 10 (user_msg "What does a doctor do?").

End Toy.


(** * Properties *)

Local Close Scope N_scope.
Arguments py : simpl never.
Arguments last_n : simpl never.

Section Properties.
Context `{collaborators : Collaborators}.

(** ** History windowing *)

Lemma last_n_length {A} (n : nat) (xs : list A) : length (last_n n xs) <= n.
Proof. unfold last_n. rewrite length_drop. lia. Qed.

Lemma last_n_short {A} (n : nat) (xs : list A) : length xs <= n -> last_n n xs = xs.
Proof.
  intros Hle. unfold last_n.
  replace (length xs - n)%nat with 0%nat by lia. reflexivity.
Qed.

Lemma omap_length_le {A B} (f : A -> option B) (l : list A) :
  length (omap f l) <= length l.
Proof.
  induction l as [|x l IH]; csimpl; [lia|].
  destruct (f x); csimpl; lia.
Qed.

(** One iteration on an element that has a role: the turn it stands for, if
    any, is appended. *)
Lemma history_turn_has_role (acc : list BaseMessage) (msg : pyval) :
  has_role msg = true ->
  history_turn acc msg = Ok (acc ++ option_list (normalized_turn msg)).
Proof.
  destruct msg as [| | | | |l|d]; simpl; try discriminate.
  intros Hrole. apply bool_decide_eq_true in Hrole.
  destruct Hrole as [role Hrole].
  unfold history_turn, py_get, py_getitem, rbind. rewrite Hrole.
  destruct (py_eq_str role (py "user")); [reflexivity|].
  destruct (py_eq_str role (py "assistant")); [reflexivity|].
  simpl. by rewrite app_nil_r.
Qed.

(** One iteration on any other element raises. *)
Lemma history_turn_no_role (acc : list BaseMessage) (msg : pyval) :
  has_role msg = false -> exists e, history_turn acc msg = Raise e.
Proof.
  destruct msg as [| | | | |l|d]; simpl; intros Hrole;
    try (eexists; reflexivity).
  apply bool_decide_eq_false in Hrole.
  unfold history_turn, py_get, py_getitem, rbind.
  destruct (d !! py "role") as [role|] eqn:Hd.
  - exfalso. apply Hrole. eauto.
  - eexists. reflexivity.
Qed.

(** The loop, from any accumulator: it returns exactly when every element of
    the window has a role, and then appends the turns in order. *)
Lemma for_each_history_turn (window : list pyval) (acc : list BaseMessage) :
  match for_each history_turn window acc with
  | Ok lc => forallb has_role window = true /\ lc = acc ++ omap normalized_turn window
  | Raise _ => forallb has_role window = false
  end.
Proof.
  revert acc. induction window as [|msg window IH]; intros acc; csimpl.
  - split; [reflexivity|]. symmetry. apply app_nil_r.
  - destruct (has_role msg) eqn:Hrole.
    + rewrite (history_turn_has_role _ _ Hrole). simpl.
      specialize (IH (acc ++ option_list (normalized_turn msg))).
      destruct (for_each history_turn window _) as [lc|e]; [|exact IH].
      destruct IH as [Hall ->]. split; [exact Hall|].
      rewrite <- app_assoc. destruct (normalized_turn msg); reflexivity.
    + destruct (history_turn_no_role acc msg Hrole) as [e ->]. reflexivity.
Qed.

Lemma omap_filter_sublist {A B} (f : A -> option B) (l : list A) :
  exists kept, sublist kept l /\ Forall2 (fun x y => f x = Some y) kept (omap f l).
Proof.
  induction l as [|x l (kept & Hsub & Hall)]; csimpl.
  - exists []. split; constructor.
  - destruct (f x) as [y|] eqn:Hfx.
    + exists (x :: kept). split; [by apply sublist_skip|]. by constructor.
    + exists kept. split; [by apply sublist_cons|]. assumption.
Qed.

(** ** The chat turn *)

Lemma fold_left_snoc_map {A B} (f : A -> B) (l : list A) (acc : list B) :
  fold_left (fun acc x => acc ++ [f x]) l acc = acc ++ (f <$> l).
Proof.
  revert acc. induction l as [|x l IH]; intros acc; csimpl.
  - by rewrite app_nil_r.
  - rewrite IH, <- app_assoc. reflexivity.
Qed.

(** [chat] written out call by call. *)
Lemma chat_cases self message chat_history language W :
  chat self message chat_history language W =
  let q := as_text message in
  match lc_history_of chat_history with
  | Raise e => (Ok (failed_result e), W)
  | Ok lc =>
      let r1 := retriever_query (vectordb self) 3 q (outside W) in
      let t1 := trace W ++ [EvRetrieve q r1.1] in
      match r1.1 with
      | Raise e => (Ok (failed_result e), {| outside := r1.2; trace := t1 |})
      | Ok docs =>
          let r2 := retriever_query (vectordb self) 3 q r1.2 in
          let t2 := t1 ++ [EvRetrieve q r2.1] in
          match r2.1 with
          | Raise e => (Ok (failed_result e), {| outside := r2.2; trace := t2 |})
          | Ok docs' =>
              let req := request q language lc docs' in
              let r3 := prompt_llm_parse (llm self) req r2.2 in
              let t3 := t2 ++ [EvGenerate req r3.1] in
              match r3.1 with
              | Raise e => (Ok (failed_result e), {| outside := r3.2; trace := t3 |})
              | Ok out => (Ok (answered_result out docs), {| outside := r3.2; trace := t3 |})
              end
          end
      end
  end.
Proof.
  unfold chat, chain_invoke, get_context, retriever_invoke, recorded_call,
    try_except, bind, lift_result, ret, request.
  cbv zeta.
  destruct (lc_history_of chat_history) as [lc|e]; [|reflexivity].
  destruct (retriever_query (vectordb self) 3 (as_text message) (outside W))
    as [[docs|e] w1]; cbn [fst snd outside trace]; [|reflexivity].
  destruct (retriever_query (vectordb self) 3 (as_text message) w1)
    as [[docs'|e] w2]; cbn [fst snd outside trace]; [|reflexivity].
  destruct (prompt_llm_parse (llm self) _ w2) as [[out|e] w3];
    cbn [fst snd outside trace]; [|reflexivity].
  unfold answered_result. rewrite fold_left_snoc_map. reflexivity.
Qed.

(** [chat] always returns, and its run is one of the five turns. *)
Lemma chat_turn_sound self message chat_history language W :
  exists res W' new,
    chat self message chat_history language W = (Ok res, W') /\
    trace W' = trace W ++ new /\
    chat_turn (as_text message) language chat_history new res.
Proof.
  rewrite chat_cases. cbv zeta.
  destruct (lc_history_of chat_history) as [lc|e] eqn:Hh.
  2:{ exists (failed_result e), W, []. split; [reflexivity|].
      split; [by rewrite app_nil_r|]. by constructor. }
  destruct (retriever_query _ _ _ (outside W)) as [[docs|e] w1]; cbn [fst snd].
  2:{ eexists _, _, _. split; [reflexivity|]. split; [reflexivity|].
      econstructor; eassumption. }
  destruct (retriever_query _ _ _ w1) as [[docs'|e] w2]; cbn [fst snd].
  2:{ eexists _, _, _. split; [reflexivity|]. cbn [trace].
      rewrite <- app_assoc. split; [reflexivity|]. econstructor; eassumption. }
  destruct (prompt_llm_parse _ _ w2) as [[out|e] w3]; cbn [fst snd].
  - eexists _, _, _. split; [reflexivity|]. cbn [trace].
    rewrite <- !app_assoc. split; [reflexivity|]. econstructor; eassumption.
  - eexists _, _, _. split; [reflexivity|]. cbn [trace].
    rewrite <- !app_assoc. split; [reflexivity|]. econstructor; eassumption.
Qed.

Lemma turn_events_app W W' new :
  trace W' = trace W ++ new -> turn_events W W' = new.
Proof. intros H. unfold turn_events. rewrite H. apply drop_app_length. Qed.

Ltac chat_outcome self message chat_history language W :=
  let res := fresh "res" in
  let W' := fresh "W'" in
  let new := fresh "new" in
  let Hrun := fresh "Hrun" in
  let Htrace := fresh "Htrace" in
  let Hturn := fresh "Hturn" in
  destruct (chat_turn_sound self message chat_history language W)
    as (res & W' & new & Hrun & Htrace & Hturn);
  rewrite Hrun; cbn [fst snd];
  try rewrite (turn_events_app _ _ _ Htrace).

Ltac no_failed_event H :=
  repeat (apply Exists_cons in H as [H|H]; [discriminate H|]);
  apply Exists_nil in H; destruct H.

(** C2: if a collaborator call made during a chat turn (the retrieval, which
    embeds the question and queries the index, or the generation) raises,
    [chat] returns a result whose response is null and whose error is a
    message, and returns normally. *)
Theorem chat_collaborator_failure_is_structured
    self message chat_history language W :
  Exists (fun ev => event_failed ev = true)
    (turn_events W (chat self message chat_history language W).2) ->
  exists res msg,
    (chat self message chat_history language W).1 = Ok res /\
    response res = None /\ error res = Some msg.
Proof.
  chat_outcome self message chat_history language W.
  intros Hfailed. exists res.
  inversion Hturn; subst; try (eexists; repeat split; reflexivity).
  exfalso. cbn in Hfailed. no_failed_event Hfailed.
Qed.

(** C3: the result of [chat] has either a response and no error, or an error
    and no response. *)
Theorem chat_result_response_xor_error self message chat_history language W :
  exists res,
    (chat self message chat_history language W).1 = Ok res /\
    ((is_Some (response res) /\ error res = None) \/
     (response res = None /\ is_Some (error res))).
Proof.
  chat_outcome self message chat_history language W.
  exists res. split; [reflexivity|].
  inversion Hturn; subst; cbn; eauto.
Qed.

Lemma lc_history_of_list (chat_history : list pyval) :
  match lc_history_of (PList chat_history) with
  | Ok lc =>
      forallb has_role (last_n 10 chat_history) = true /\
      lc = windowed_history chat_history
  | Raise _ => forallb has_role (last_n 10 chat_history) = false
  end.
Proof.
  unfold lc_history_of, py_iter_last, rbind, windowed_history.
  exact (for_each_history_turn (last_n 10 chat_history) []).
Qed.

Lemma last_n_is_suffix {A} (n : nat) (xs : list A) :
  xs = take (length xs - n) xs ++ last_n n xs /\
  length (last_n n xs) = Nat.min n (length xs).
Proof.
  unfold last_n. split; [by rewrite take_drop|]. rewrite length_drop. lia.
Qed.

(** C4: split the caller-supplied sequence as [old ++ recent] with [recent]
    its last ten elements (all of them when there are fewer).  The history
    built is the turns of [recent], in their order: at most ten turns, role
    "user" as a user turn, role "assistant" as an assistant turn, any other
    role value dropped.  The loop raises only on an element of [recent] that
    has no role at all, and every generation request of the turn carries
    this history. *)
Theorem history_window_normalized (chat_history : list pyval) :
  exists old recent,
    chat_history = old ++ recent /\
    length recent = Nat.min 10 (length chat_history) /\
    match lc_history_of (PList chat_history) with
    | Ok lc =>
        lc = omap normalized_turn recent /\
        length lc <= 10 /\
        exists kept,
          sublist kept recent /\
          Forall2 (fun msg turn => normalized_turn msg = Some turn) kept lc
    | Raise _ => forallb has_role recent = false
    end /\
    forall self message language W,
      Forall (fun ev =>
                match ev with
                | EvGenerate req _ =>
                    req_chat_history req = omap normalized_turn recent
                | EvRetrieve _ _ => True
                end)
        (turn_events W (chat self message (PList chat_history) language W).2).
Proof.
  pose proof (lc_history_of_list chat_history) as Hlc.
  unfold windowed_history in Hlc.
  destruct (last_n_is_suffix 10 chat_history) as [Hsplit Hlen].
  exists (take (length chat_history - 10) chat_history), (last_n 10 chat_history).
  split; [exact Hsplit|]. split; [exact Hlen|]. split.
  - destruct (lc_history_of (PList chat_history)) as [lc|e]; [|exact Hlc].
    destruct Hlc as [_ ->]. split; [reflexivity|]. split.
    + etransitivity; [apply omap_length_le|apply last_n_length].
    + apply omap_filter_sublist.
  - intros self message language W.
    chat_outcome self message (PList chat_history) language W.
    inversion Hturn as [e He|lc e He|lc docs e He|lc docs docs' e He
                       |lc docs docs' out He]; subst;
      rewrite He in Hlc; repeat constructor; apply Hlc.
Qed.


(** C8: on a turn that produces a response, the sources are the first four
    retrieved chunks at most, in rank order; each entry has the chunk's title
    (or "Unknown"), its chunk index (or 0), an integer whenever the index
    stores one, and the first 250 characters of the chunk text. *)
Theorem chat_sources_shape self message chat_history language W res out :
  (chat self message chat_history language W).1 = Ok res ->
  response res = Some out ->
  exists docs,
    head (turn_events W (chat self message chat_history language W).2) =
      Some (EvRetrieve (as_text message) (Ok docs)) /\
    length (sources res) <= 4 /\
    length (sources res) <= length docs /\
    forall i src,
      sources res !! i = Some src ->
      exists doc,
        docs !! i = Some doc /\
        title src = default (PStr (py "Unknown")) (metadata doc !! py "title") /\
        chunk_index src = default (PInt 0) (metadata doc !! py "chunk_index") /\
        (chunk_index_stored_as_int doc -> is_int (chunk_index src) = true) /\
        snippet src = take 250 (page_content doc) /\
        length (snippet src) <= 250.
Proof.
  chat_outcome self message chat_history language W.
  intros Hres Hout. injection Hres as <-.
  inversion Hturn; subst; try discriminate Hout.
  exists docs. cbn [sources answered_result head].
  split; [reflexivity|].
  rewrite length_fmap, length_take. split; [lia|]. split; [lia|].
  intros i src Hsrc.
  apply list_lookup_fmap_Some in Hsrc as (doc & -> & Hdoc).
  apply lookup_take_Some in Hdoc as [Hdoc _].
  exists doc. split; [exact Hdoc|].
  cbn [title chunk_index snippet source_of]. unfold doc_title.
  repeat split.
  - unfold chunk_index_stored_as_int.
    destruct (metadata doc !! py "chunk_index"); [tauto|reflexivity].
  - rewrite length_take. lia.
Qed.

(** ** Greeting *)


(** [generate_initial_greeting] written out: its own handler runs only when
    the instruction lookup raises, because [chat] never does. *)
Lemma greeting_cases self assessment_summary language W :
  generate_initial_greeting self assessment_summary language W =
  match lang_instruction_of language with
  | Ok instr =>
      chat self (PStr (greeting_prompt instr assessment_summary)) (PList [])
        language W
  | Raise e =>
      (Ok {| response := Some fallback_greeting;
             sources := [];
             error := Some (exn_str e) |}, W)
  end.
Proof.
  unfold generate_initial_greeting, try_except, bind, lift_result, ret.
  destruct (lang_instruction_of language) as [instr|e]; [|reflexivity].
  destruct (chat_turn_sound self (PStr (greeting_prompt instr assessment_summary))
              (PList []) language W) as (res & W' & new & -> & _ & _).
  reflexivity.
Qed.


(** C6 as the code has it: the fallback greeting is returned, with the error
    text, when the failure happens in [generate_initial_greeting] itself,
    before [chat] is entered (the instruction lookup raising on a language
    value that cannot be hashed); a collaborator failure inside [chat] comes
    back as [chat] reports it, with a null response and the error text. *)
Theorem greeting_fallback_only_before_chat self assessment_summary language W :
  match lang_instruction_of language with
  | Raise e =>
      generate_initial_greeting self assessment_summary language W =
        (Ok {| response := Some fallback_greeting;
               sources := [];
               error := Some (exn_str e) |}, W)
  | Ok instr =>
      exists res,
        (generate_initial_greeting self assessment_summary language W).1 = Ok res /\
        (Exists (fun ev => event_failed ev = true)
           (turn_events W
              (generate_initial_greeting self assessment_summary language W).2) ->
         response res = None /\ sources res = [] /\ is_Some (error res))
  end.
Proof.
  rewrite greeting_cases.
  destruct (lang_instruction_of language) as [instr|e]; [|reflexivity].
  chat_outcome self (PStr (greeting_prompt instr assessment_summary))
    (PList []) language W.
  exists res. split; [reflexivity|]. intros Hfailed.
  inversion Hturn; subst; cbn; eauto.
  exfalso. no_failed_event Hfailed.
Qed.


(** The greeting prompt is the fixed text with the instruction and the
    summary in their places. *)
Lemma greeting_prompt_template instr assessment_summary :
  greeting_prompt instr assessment_summary =
    greeting_preamble ++ instr ++ nl ++ nl ++ py "Assessment Summary:" ++ nl
      ++ as_text assessment_summary ++ greeting_closing.
Proof. vm_compute. reflexivity. Qed.


(** ** Elements without a role *)

Lemma window_without_role_raises (chat_history : list pyval) msg :
  msg ∈ last_n 10 chat_history ->
  has_role msg = false ->
  exists e, lc_history_of (PList chat_history) = Raise e.
Proof.
  intros Hin Hrole.
  pose proof (lc_history_of_list chat_history) as Hlc.
  destruct (lc_history_of (PList chat_history)) as [lc|e]; [|eauto].
  destruct Hlc as [Hall _]. exfalso.
  rewrite forallb_forall in Hall.
  apply list_elem_of_In in Hin. specialize (Hall _ Hin). congruence.
Qed.

(** C10 as the code has it, for an element among the last ten: without a
    "role" key the whole turn fails before any retrieval, with a null
    response, no sources and an error text; with a role of an unrecognized
    value the element is skipped without error; without a "content" key it
    is kept with empty content. *)
Theorem missing_role_in_window_fails_turn
    self message (chat_history : list pyval) language W d :
  PDict d ∈ last_n 10 chat_history ->
  (d !! py "role" = None ->
   exists msg,
     chat self message (PList chat_history) language W =
       (Ok {| response := None; sources := []; error := Some msg |}, W)) /\
  (forall role acc,
     d !! py "role" = Some role ->
     py_eq_str role (py "user") = false ->
     py_eq_str role (py "assistant") = false ->
     history_turn acc (PDict d) = Ok acc) /\
  (d !! py "content" = None ->
   forall lc,
     lc_history_of (PList chat_history) = Ok lc ->
     (d !! py "role" = Some (PStr (py "user")) -> HumanMessage (py "") ∈ lc) /\
     (d !! py "role" = Some (PStr (py "assistant")) -> AIMessage (py "") ∈ lc)).
Proof.
  intros Hin. split; [|split].
  - intros Hrole.
    destruct (window_without_role_raises chat_history (PDict d) Hin) as [e He].
    { cbn. rewrite Hrole. apply bool_decide_eq_false. by intros [? ?]. }
    exists (exn_str e). rewrite chat_cases. cbv zeta. rewrite He. reflexivity.
  - intros role acc Hrole Huser Hassistant.
    rewrite history_turn_has_role.
    + cbn. rewrite Hrole, Huser, Hassistant. cbn. by rewrite app_nil_r.
    + cbn. rewrite Hrole. apply bool_decide_eq_true. eauto.
  - intros Hcontent lc Hlc.
    pose proof (lc_history_of_list chat_history) as Hspec.
    rewrite Hlc in Hspec. destruct Hspec as [_ ->].
    unfold windowed_history.
    split; intros Hrole; apply list_elem_of_omap; exists (PDict d);
      (split; [exact Hin|]); cbn; rewrite Hrole, Hcontent; reflexivity.
Qed.

(** ** The dispatcher *)

Lemma chat_is_not_initialize : py_eq_str (PStr (py "chat")) (py "initialize") = false.
Proof. vm_compute. reflexivity. Qed.

Lemma greeting_is_not_initialize :
  py_eq_str (PStr (py "greeting")) (py "initialize") = false.
Proof. vm_compute. reflexivity. Qed.

Lemma greeting_is_not_chat : py_eq_str (PStr (py "greeting")) (py "chat") = false.
Proof. vm_compute. reflexivity. Qed.

Lemma py_eq_str_refl (s : pystr) : py_eq_str (PStr s) s = true.
Proof. cbn. by apply bool_decide_eq_true. Qed.

(** A line that holds a JSON object is dispatched inside the [try]. *)
Lemma handle_line_object line d (s : Process * World) :
  str_strip line <> [] ->
  json_loads (str_strip line) = Ok (PDict d) ->
  handle_line line s =
    try_except (dispatch (PDict d)) (fun e => print (Error_message (exn_str e))) s.
Proof.
  intros Hline Hjson. unfold handle_line.
  destruct (str_strip line) as [|c rest] eqn:Hstrip; [congruence|].
  unfold try_except, bind, lift_result. rewrite Hjson. reflexivity.
Qed.

(** [chat] and [greeting] raise before anything else when there is no
    service instance. *)
Lemma dispatch_uninitialized d p (W : World) :
  rag_service p = None ->
  d !! py "command" = Some (PStr (py "chat")) \/
  d !! py "command" = Some (PStr (py "greeting")) ->
  dispatch (PDict d) (p, W) = (Raise (Exception not_initialized), (p, W)).
Proof.
  intros Hnone [Hcmd|Hcmd];
    unfold dispatch, bind, lift_result, py_get, read_rag_service, raise;
    rewrite Hcmd; cbn [default from_option id].
  - rewrite chat_is_not_initialize, py_eq_str_refl. cbn [fst snd].
    rewrite Hnone. reflexivity.
  - rewrite greeting_is_not_initialize, greeting_is_not_chat, py_eq_str_refl.
    cbn [fst snd]. rewrite Hnone. reflexivity.
Qed.

Lemma dispatch_initialize_failed d p (W W' : World) e :
  d !! py "command" = Some (PStr (py "initialize")) ->
  __init__ (init_args d).1.1 (init_args d).1.2 (init_args d).2 W = (Raise e, W') ->
  dispatch (PDict d) (p, W) = (Raise e, (p, W')).
Proof.
  intros Hcmd Hinit.
  unfold dispatch, bind, lift_result, py_get, in_world.
  rewrite Hcmd. cbn [default from_option id]. rewrite py_eq_str_refl. cbn [fst snd].
  unfold init_args in Hinit. cbn [fst snd] in Hinit. rewrite Hinit. reflexivity.
Qed.

Lemma dispatch_chat_initialized d p (W W' : World) svc res :
  d !! py "command" = Some (PStr (py "chat")) ->
  rag_service p = Some svc ->
  chat svc (chat_args d).1.1 (chat_args d).1.2 (chat_args d).2 W = (Ok res, W') ->
  dispatch (PDict d) (p, W) =
    (Ok tt, ({| rag_service := Some svc; stdout := stdout p ++ [Success_data res] |}, W')).
Proof.
  intros Hcmd Hsvc Hchat.
  unfold dispatch, bind, lift_result, py_get, in_world, read_rag_service, print.
  rewrite Hcmd. cbn [default from_option id].
  rewrite chat_is_not_initialize, py_eq_str_refl. cbn [fst snd].
  rewrite Hsvc. cbn [fst snd].
  unfold chat_args in Hchat. cbn [fst snd] in Hchat. rewrite Hchat.
  cbn [fst snd rag_service stdout]. rewrite Hsvc. reflexivity.
Qed.





Lemma handler_prints_error d p (W W' : World) e :
  dispatch (PDict d) (p, W) = (Raise e, (p, W')) ->
  try_except (dispatch (PDict d)) (fun e => print (Error_message (exn_str e))) (p, W) =
    (Ok tt, ({| rag_service := rag_service p;
                stdout := stdout p ++ [Error_message (exn_str e)] |}, W')).
Proof. intros Hd. unfold try_except. rewrite Hd. reflexivity. Qed.


(** A provider other than "groq" and "google" makes the constructor raise,
    whatever the collaborators do. *)
Lemma unsupported_provider_raises careers_json chroma_dir provider W :
  py_eq_str provider (py "groq") = false ->
  py_eq_str provider (py "google") = false ->
  exists e W', __init__ careers_json chroma_dir provider W = (Raise e, W').
Proof.
  intros Hgroq Hgoogle. unfold __init__, bind.
  destruct (outside_call _ W) as [[emb|e] W1]; [|eauto].
  destruct (_init_vectordb careers_json chroma_dir emb W1) as [[db|e] W2]; [|eauto].
  unfold _init_llm. rewrite Hgroq, Hgoogle. unfold raise. eauto.
Qed.

(** C9: when the constructor raises during an [initialize] command, the
    dispatcher prints an error response carrying the exception text and the
    service instance is the one it was: an instance constructed earlier
    serves the next [chat] command, and without one the next [chat] or
    [greeting] command is still rejected as uninitialized. *)
Theorem failed_initialize_keeps_service line d p W e W' :
  str_strip line <> [] ->
  json_loads (str_strip line) = Ok (PDict d) ->
  d !! py "command" = Some (PStr (py "initialize")) ->
  __init__ (init_args d).1.1 (init_args d).1.2 (init_args d).2 W = (Raise e, W') ->
  let p' := {| rag_service := rag_service p;
               stdout := stdout p ++ [Error_message (exn_str e)] |} in
  handle_line line (p, W) = (Ok tt, (p', W')) /\
  (forall svc line2 d2,
     rag_service p = Some svc ->
     str_strip line2 <> [] ->
     json_loads (str_strip line2) = Ok (PDict d2) ->
     d2 !! py "command" = Some (PStr (py "chat")) ->
     exists res W'',
       chat svc (chat_args d2).1.1 (chat_args d2).1.2 (chat_args d2).2 W' =
         (Ok res, W'') /\
       handle_line line2 (p', W') =
         (Ok tt, ({| rag_service := Some svc;
                     stdout := stdout p' ++ [Success_data res] |}, W''))) /\
  (forall line2 d2,
     rag_service p = None ->
     str_strip line2 <> [] ->
     json_loads (str_strip line2) = Ok (PDict d2) ->
     d2 !! py "command" = Some (PStr (py "chat")) \/
     d2 !! py "command" = Some (PStr (py "greeting")) ->
     handle_line line2 (p', W') =
       (Ok tt, ({| rag_service := None;
                   stdout := stdout p' ++ [Error_message not_initialized] |}, W'))).
Proof.
  intros Hline Hjson Hcmd Hinit p'. split; [|split].
  - rewrite (handle_line_object _ d) by assumption.
    apply handler_prints_error. by apply dispatch_initialize_failed.
  - intros svc line2 d2 Hsvc Hline2 Hjson2 Hcmd2.
    destruct (chat_turn_sound svc (chat_args d2).1.1 (chat_args d2).1.2
                (chat_args d2).2 W') as (res & W'' & new & Hchat & _ & _).
    exists res, W''. split; [exact Hchat|].
    rewrite (handle_line_object _ d2) by assumption.
    unfold try_except.
    rewrite (dispatch_chat_initialized d2 p' W' W'' svc res); auto.
  - intros line2 d2 Hnone Hline2 Hjson2 Hcmd2.
    rewrite (handle_line_object _ d2) by assumption.
    rewrite (handler_prints_error d2 p' W' W' (Exception not_initialized)).
    + subst p'. cbn [rag_service]. rewrite Hnone. reflexivity.
    + by apply dispatch_uninitialized.
Qed.

(** ** Ingestion stores integer chunk indices *)

Lemma for_each_invariant {A B} (P : B -> Prop) (body : B -> A -> result B) xs :
  (forall acc x acc', P acc -> body acc x = Ok acc' -> P acc') ->
  forall acc out, P acc -> for_each body xs acc = Ok out -> P out.
Proof.
  intros Hbody. induction xs as [|x xs IH]; intros acc out Hacc; cbn.
  - by intros [= <-].
  - destruct (body acc x) as [acc'|e] eqn:Hx; cbn; [|discriminate].
    apply IH. by eapply Hbody.
Qed.

Lemma _json_to_docs_chunk_index_int items docs :
  _json_to_docs items = Ok docs -> Forall chunk_index_stored_as_int docs.
Proof.
  unfold _json_to_docs, rbind.
  destruct (py_iter items) as [its|e]; [|discriminate].
  apply (for_each_invariant (Forall chunk_index_stored_as_int)); [|constructor].
  intros acc item acc' Hacc.
  destruct (py_getitem item (py "title")) as [t|e]; [|discriminate].
  destruct (py_getitem item (py "content")) as [c|e]; [|discriminate].
  apply (for_each_invariant (Forall chunk_index_stored_as_int)); [|exact Hacc].
  clear. intros acc [i ch] acc' Hacc.
  destruct (py_getitem item (py "id")) as [sid|e]; [|discriminate].
  destruct (py_getitem item (py "title")) as [t|e]; [|discriminate].
  intros [= <-]. apply Forall_app. split; [exact Hacc|].
  constructor; [|constructor].
  unfold chunk_index_stored_as_int. cbn [metadata].
  rewrite lookup_insert_ne by (vm_compute; discriminate).
  rewrite lookup_insert_ne by (vm_compute; discriminate).
  rewrite lookup_singleton_eq. reflexivity.
Qed.

End Properties.

(** * The model at work on the test doubles *)

Section Examples.
#[local] Existing Instance Toy.doubles.


Lemma chat_collaborator_failure_is_structured_witness :
  Exists (fun ev => event_failed ev = true)
    (turn_events (Toy.scripted [Raise Toy.index_down] [])
       (chat Toy.service Toy.question (PList []) (PStr (py "en"))
          (Toy.scripted [Raise Toy.index_down] [])).2) /\
  exists res msg,
    (chat Toy.service Toy.question (PList []) (PStr (py "en"))
       (Toy.scripted [Raise Toy.index_down] [])).1 = Ok res /\
    response res = None /\ error res = Some msg.
Proof.
  assert (H : Exists (fun ev => event_failed ev = true)
                (turn_events (Toy.scripted [Raise Toy.index_down] [])
                   (chat Toy.service Toy.question (PList []) (PStr (py "en"))
                      (Toy.scripted [Raise Toy.index_down] [])).2)).
  { vm_compute. apply Exists_cons_hd. reflexivity. }
  split; [exact H|].
  exact (chat_collaborator_failure_is_structured _ _ _ _ _ H).
Defined.



(** C6 refuted as stated: when the index fails during a greeting, the
    response is null, not the fallback greeting. *)
Lemma greeting_fallback_refuted :
  let W := Toy.scripted [Raise Toy.index_down] [] in
  let run :=
    generate_initial_greeting Toy.service (PStr (py "Realistic, Investigative"))
      (PStr (py "hi")) W in
  Exists (fun ev => event_failed ev = true) (turn_events W run.2) /\
  run.1 = Ok {| response := None;
                sources := [];
                error := Some (py "index unavailable") |} /\
  (response <$> run.1) <> Ok (Some fallback_greeting).
Proof.
  cbv zeta. split; [vm_compute; apply Exists_cons_hd; reflexivity|].
  split; [vm_compute; reflexivity|].
  vm_compute. discriminate.
Defined.


Lemma chat_sources_shape_witness :
  let run := chat Toy.service Toy.question (PList []) (PStr (py "en")) Toy.quiet in
  exists res out,
    run.1 = Ok res /\ response res = Some out /\
    length (sources res) <= 4 /\
    forall src,
      sources res !! 0 = Some src ->
      is_int (chunk_index src) = true /\
      snippet src = take 250 (page_content Toy.doctor_doc).
Proof.
  cbv zeta.
  eexists _, _. split; [vm_compute; reflexivity|]. split; [reflexivity|].
  destruct (chat_sources_shape Toy.service Toy.question (PList [])
              (PStr (py "en")) Toy.quiet _ _
              ltac:(vm_compute; reflexivity) ltac:(reflexivity))
    as (docs & Hhead & Hle & _ & Hentries).
  split; [exact Hle|].
  intros src Hsrc.
  destruct (Hentries 0 src Hsrc) as (doc & Hdoc & _ & _ & Hint & Hsnip & _).
  vm_compute in Hhead. injection Hhead as <-.
  injection Hdoc as <-.
  split; [apply Hint; vm_compute; reflexivity|exact Hsnip].
Defined.

Lemma failed_initialize_keeps_service_witness :
  let p := {| rag_service := Some Toy.service; stdout := [] |} in
  __init__ (init_args (Toy.init_fields "openai")).1.1
    (init_args (Toy.init_fields "openai")).1.2
    (init_args (Toy.init_fields "openai")).2 Toy.quiet =
    (Raise Toy.unknown_openai, Toy.quiet) /\
  handle_line (Toy.init_line "openai") (p, Toy.quiet) =
    (Ok tt,
     ({| rag_service := Some Toy.service;
         stdout := [Error_message (exn_str Toy.unknown_openai)] |},
      Toy.quiet)).
Proof.
  cbv zeta.
  assert (Hinit :
    __init__ (init_args (Toy.init_fields "openai")).1.1
      (init_args (Toy.init_fields "openai")).1.2
      (init_args (Toy.init_fields "openai")).2 Toy.quiet =
      (Raise Toy.unknown_openai, Toy.quiet))
    by reflexivity.
  split; [exact Hinit|].
  assert (Hline : str_strip (Toy.init_line "openai") <> [])
    by (vm_compute; discriminate).
  assert (Hjson : json_loads (str_strip (Toy.init_line "openai")) =
                    Ok (PDict (Toy.init_fields "openai")))
    by (vm_compute; reflexivity).
  assert (Hcmd : Toy.init_fields "openai" !! py "command" =
                   Some (PStr (py "initialize")))
    by (vm_compute; reflexivity).
  destruct (failed_initialize_keeps_service (Toy.init_line "openai")
              (Toy.init_fields "openai")
              {| rag_service := Some Toy.service; stdout := [] |}
              Toy.quiet Toy.unknown_openai
              Toy.quiet Hline Hjson Hcmd Hinit) as [Hprinted _].
  exact Hprinted.
Defined.

(** C10 refuted as stated: an element without a role that lies before the
    last ten elements is never looked at, and the turn succeeds. *)
Lemma stale_element_without_role_ignored :
  Toy.stale_history !! 0 = Some (PDict Toy.no_role) /\
  Toy.no_role !! py "role" = None /\
  (response <$>
     (chat Toy.service Toy.question (PList Toy.stale_history) (PStr (py "en"))
        Toy.quiet).1) =
    Ok (Some (py "Doctors diagnose and treat illness.")).
Proof.
  split; [reflexivity|]. split; vm_compute; reflexivity.
Defined.

Lemma missing_role_in_window_fails_turn_witness :
  PDict Toy.no_role ∈ last_n 10 [Toy.user_msg "Hi"; PDict Toy.no_role] /\
  exists msg,
    chat Toy.service Toy.question
      (PList [Toy.user_msg "Hi"; PDict Toy.no_role]) (PStr (py "en")) Toy.quiet =
      (Ok {| response := None; sources := []; error := Some msg |}, Toy.quiet).
Proof.
  assert (Hin : PDict Toy.no_role ∈ last_n 10 [Toy.user_msg "Hi"; PDict Toy.no_role]).
  { rewrite last_n_short by (cbn; lia). apply list_elem_of_further, list_elem_of_here. }
  split; [exact Hin|].
  apply (missing_role_in_window_fails_turn Toy.service Toy.question
           [Toy.user_msg "Hi"; PDict Toy.no_role] (PStr (py "en")) Toy.quiet
           Toy.no_role Hin).
  vm_compute. reflexivity.
Defined.

End Examples.

(** * Further properties of the service *)

Section Ingestion_properties.
Context `{collaborators : Collaborators}.

(** The inner loop of [_json_to_docs] over already numbered chunks. *)
Definition chunk_docs_loop (item : pyval) (numbered : list (nat * pystr))
    (docs : list Document) : result (list Document) :=
  for_each
    (fun docs ich =>
       source_id <~ py_getitem item (py "id") ;;
       title <~ py_getitem item (py "title") ;;
       Ok (docs ++ [chunk_document source_id title ich.1 ich.2]))
    numbered docs.

Lemma for_each_app {A B} (body : B -> A -> result B) xs ys acc :
  for_each body (xs ++ ys) acc = rbind (for_each body xs acc) (for_each body ys).
Proof.
  revert acc. induction xs as [|x xs IH]; intros acc; cbn; [reflexivity|].
  destruct (body acc x) as [acc'|e]; cbn; [apply IH|reflexivity].
Qed.

Lemma chunk_loop_numbered item source_id title (f : nat -> nat) chunks docs :
  py_getitem item (py "id") = Ok source_id ->
  py_getitem item (py "title") = Ok title ->
  chunk_docs_loop item (imap (fun i ch => (f i, ch)) chunks) docs =
    Ok (docs ++ imap (fun i => chunk_document source_id title (f i)) chunks).
Proof.
  intros Hid Htitle. revert f docs.
  induction chunks as [|ch chunks IH]; intros f docs.
  - cbn [imap]. unfold chunk_docs_loop. cbn [for_each]. by rewrite app_nil_r.
  - specialize (IH (f ∘ S) (docs ++ [chunk_document source_id title (f 0) ch])).
    rewrite <- app_assoc in IH.
    cbn [imap]. unfold chunk_docs_loop in *. cbn [for_each].
    rewrite Hid, Htitle in IH |- *. cbn [rbind fst snd]. exact IH.
Qed.

(** The inner loop, for a record that has an id and a title. *)
Lemma chunk_docs_numbered item source_id title chunks docs :
  py_getitem item (py "id") = Ok source_id ->
  py_getitem item (py "title") = Ok title ->
  chunk_docs item chunks docs =
    Ok (docs ++ imap (chunk_document source_id title) chunks).
Proof.
  intros Hid Htitle.
  exact (chunk_loop_numbered item source_id title id chunks docs Hid Htitle).
Qed.

Lemma chunk_docs_nil item docs : chunk_docs item [] docs = Ok docs.
Proof. reflexivity. Qed.

Definition json_item_body (docs : list Document) (item : pyval)
    : result (list Document) :=
  title <~ py_getitem item (py "title") ;;
  content <~ py_getitem item (py "content") ;;
  chunk_docs item (record_chunks title content) docs.

Lemma _json_to_docs_list items :
  _json_to_docs (PList items) = for_each json_item_body items [].
Proof. reflexivity. Qed.

Lemma json_item_body_record item r docs :
  record_fields item = Some r ->
  json_item_body docs item = Ok (docs ++ documents_of_record r).
Proof.
  destruct item as [| | | | | |d]; cbn; try discriminate.
  destruct (d !! py "id") as [source_id|] eqn:Hid; [|discriminate].
  destruct (d !! py "title") as [title|] eqn:Htitle; [|discriminate].
  destruct (d !! py "content") as [content|] eqn:Hcontent; [|discriminate].
  intros [= <-]. unfold json_item_body. cbn. rewrite Htitle, Hcontent. cbn.
  apply chunk_docs_numbered; cbn; by rewrite ?Hid, ?Htitle.
Qed.

Lemma for_each_records items records docs :
  mapM record_fields items = Some records ->
  for_each json_item_body items docs =
    Ok (docs ++ concat (documents_of_record <$> records)).
Proof.
  intros H%mapM_Some_1. revert docs.
  induction H as [|item r items records Hr _ IH]; intros docs; cbn.
  - by rewrite app_nil_r.
  - rewrite (json_item_body_record _ _ _ Hr). cbn. rewrite IH.
    by rewrite <- app_assoc.
Qed.

(** X1: for a corpus whose records all have an id, a title and a content,
    ingestion returns, in record order, the documents of each record. *)
Theorem json_to_docs_of_records items records :
  mapM record_fields items = Some records ->
  _json_to_docs (PList items) = Ok (concat (documents_of_record <$> records)).
Proof.
  intros H. rewrite _json_to_docs_list. by rewrite (for_each_records _ _ [] H).
Qed.

(** X2: the documents of one record are one per chunk, in chunk order; the
    document of chunk [i] holds that chunk as its text and has chunk index
    [i], counted from 0, with the title and the id of the record. *)
Theorem json_to_docs_chunk_indices_contiguous item source_id title content :
  record_fields item = Some (source_id, title, content) ->
  exists docs,
    _json_to_docs (PList [item]) = Ok docs /\
    length docs = length (record_chunks title content) /\
    forall i doc,
      docs !! i = Some doc ->
      record_chunks title content !! i = Some (page_content doc) /\
      metadata doc !! py "chunk_index" = Some (PInt (Z.of_nat i)) /\
      metadata doc !! py "title" = Some title /\
      metadata doc !! py "source_id" = Some source_id.
Proof.
  intros Hr. eexists. split.
  { rewrite _json_to_docs_list.
    rewrite (for_each_records [item] [(source_id, title, content)] []);
      [reflexivity|]. cbn. rewrite Hr. reflexivity. }
  cbn. rewrite app_nil_r. unfold documents_of_record. cbn [fst snd].
  split; [apply length_imap|].
  intros i doc Hdoc.
  apply list_lookup_imap_Some in Hdoc as (ch & Hch & ->).
  split; [exact Hch|]. cbn [metadata chunk_document].
  split; [|split].
  - rewrite !lookup_insert_ne by (vm_compute; discriminate).
    apply lookup_singleton_eq.
  - rewrite lookup_insert_ne by (vm_compute; discriminate).
    apply lookup_insert_eq.
  - apply lookup_insert_eq.
Qed.

(** X3: the first record that lacks a field aborts ingestion with a KeyError
    naming the field, whatever follows it; a missing id is noticed only when
    the record has at least one chunk. *)
Theorem json_to_docs_stops_at_malformed_record items records d rest :
  mapM record_fields items = Some records ->
  (d !! py "title" = None ->
   _json_to_docs (PList (items ++ PDict d :: rest)) =
     Raise (KeyError (quote (py "title")))) /\
  (forall title,
     d !! py "title" = Some title ->
     d !! py "content" = None ->
     _json_to_docs (PList (items ++ PDict d :: rest)) =
       Raise (KeyError (quote (py "content")))) /\
  (forall title content,
     d !! py "title" = Some title ->
     d !! py "content" = Some content ->
     d !! py "id" = None ->
     record_chunks title content <> [] ->
     _json_to_docs (PList (items ++ PDict d :: rest)) =
       Raise (KeyError (quote (py "id")))).
Proof.
  intros Hitems. rewrite _json_to_docs_list, for_each_app.
  rewrite (for_each_records _ _ [] Hitems). cbn [rbind for_each app].
  unfold json_item_body at 1 3 5. cbn [py_getitem rbind].
  split; [|split].
  - intros ->. reflexivity.
  - intros title -> ->. reflexivity.
  - intros title content -> -> Hid Hchunks. cbn [rbind].
    unfold chunk_docs.
    destruct (record_chunks title content) as [|ch chunks]; [congruence|].
    cbn. rewrite Hid. reflexivity.
Qed.

(** X4: a record with a title and a content whose text splits into no chunk
    adds nothing: the corpus is ingested as if the record were not there,
    and its id is never read. *)
Theorem json_to_docs_skips_chunkless_record items d rest title content :
  d !! py "title" = Some title ->
  d !! py "content" = Some content ->
  record_chunks title content = [] ->
  _json_to_docs (PList (items ++ PDict d :: rest)) =
    _json_to_docs (PList (items ++ rest)).
Proof.
  intros Htitle Hcontent Hchunks. rewrite !_json_to_docs_list, !for_each_app.
  destruct (for_each json_item_body items []) as [docs|e]; [|reflexivity].
  cbn [rbind for_each]. unfold json_item_body at 1. cbn [py_getitem rbind].
  rewrite Htitle, Hcontent. cbn [rbind]. rewrite Hchunks, chunk_docs_nil.
  reflexivity.
Qed.

End Ingestion_properties.

Section Construction_properties.
Context `{collaborators : Collaborators}.

Lemma outside_call_eq {A} (f : world -> result A * world) W r w :
  f (outside W) = (r, w) ->
  outside_call f W = (r, {| outside := w; trace := trace W |}).
Proof. intros H. unfold outside_call. rewrite H. reflexivity. Qed.

(** X5: when the persist directory is populated, the index is loaded from
    it and the corpus path plays no part: any two corpus paths give the same
    outcome and the same world. *)
Theorem init_vectordb_ignores_corpus_when_persisted
    path1 path2 chroma_dir emb W w1 :
  persist_dir_populated chroma_dir (outside W) = (Ok true, w1) ->
  _init_vectordb path1 chroma_dir emb W = _init_vectordb path2 chroma_dir emb W /\
  _init_vectordb path1 chroma_dir emb W =
    outside_call (Chroma_load chroma_dir emb) {| outside := w1; trace := trace W |}.
Proof.
  intros Hpop. unfold _init_vectordb, bind.
  rewrite (outside_call_eq _ _ _ _ Hpop). split; reflexivity.
Qed.

(** X6: when the persist directory is not populated, the index is built
    from exactly the documents ingestion returns for the corpus file; if
    ingestion raises, the index is never built and the world is the one left
    by reading the file. *)
Theorem init_vectordb_builds_from_ingestion path chroma_dir emb W w1 items w2 :
  persist_dir_populated chroma_dir (outside W) = (Ok false, w1) ->
  load_json_file path w1 = (Ok items, w2) ->
  _init_vectordb path chroma_dir emb W =
    match _json_to_docs items with
    | Ok docs =>
        outside_call (Chroma_from_documents docs emb chroma_dir)
          {| outside := w2; trace := trace W |}
    | Raise e => (Raise e, {| outside := w2; trace := trace W |})
    end.
Proof.
  intros Hpop Hload.
  unfold _init_vectordb, bind, lift_result.
  rewrite (outside_call_eq _ _ _ _ Hpop).
  rewrite (outside_call_eq _ {| outside := w1; trace := trace W |} _ _ Hload).
  destruct (_json_to_docs items); reflexivity.
Qed.

(** X7: a provider other than "groq" and "google" is rejected only after
    the embedding model and the index have been set up: the constructor
    raises a ValueError naming the provider, in the world those steps left. *)
Theorem init_rejects_provider_after_index
    careers_json chroma_dir provider W emb w1 db W2 :
  HuggingFaceEmbeddings (py "BAAI/bge-m3") (outside W) = (Ok emb, w1) ->
  _init_vectordb careers_json chroma_dir emb {| outside := w1; trace := trace W |} =
    (Ok db, W2) ->
  py_eq_str provider (py "groq") = false ->
  py_eq_str provider (py "google") = false ->
  __init__ careers_json chroma_dir provider W =
    (Raise (ValueError (py "Unknown provider: " ++ as_text provider)), W2).
Proof.
  intros Hemb Hdb Hgroq Hgoogle.
  unfold __init__, bind. rewrite (outside_call_eq _ _ _ _ Hemb), Hdb.
  unfold _init_llm. rewrite Hgroq, Hgoogle. reflexivity.
Qed.

Lemma format_loop (f : nat -> nat) docs acc :
  fold_left
    (fun formatted idoc =>
       formatted ++
         [py "[Source " ++ str_of_nat (S idoc.1) ++ py ": "
            ++ as_text (doc_title idoc.2) ++ py "]" ++ nl
            ++ page_content idoc.2])
    (imap (fun i (doc : Document) => (f i, doc)) docs) acc =
  acc ++ imap (fun i => source_block (S (f i))) docs.
Proof.
  revert f acc. induction docs as [|doc docs IH]; intros f acc.
  - cbn [imap fold_left]. by rewrite app_nil_r.
  - specialize (IH (f ∘ S) (acc ++ [source_block (S (f 0)) doc])).
    rewrite <- app_assoc in IH. exact IH.
Qed.

(** X8: the prompt context of a non-empty retrieval result lists the
    documents in retrieval order, numbered from 1, each as a header line
    with its title followed by its text, joined by the separator; an empty
    result gives the fixed marker. *)
Theorem format_docs_numbered_blocks docs :
  format_docs docs =
    match docs with
    | [] => py "No relevant information found."
    | _ => join context_separator (imap (fun i => source_block (S i)) docs)
    end.
Proof.
  destruct docs as [|doc docs]; [reflexivity|].
  unfold format_docs.
  change (imap pair (doc :: docs))
    with (imap (fun i (d : Document) => (id i, d)) (doc :: docs)).
  rewrite (format_loop id (doc :: docs) []). reflexivity.
Qed.

End Construction_properties.

Section Dispatcher_properties.
Context `{collaborators : Collaborators}.

Lemma greeting_returns self assessment_summary language W :
  exists res W',
    generate_initial_greeting self assessment_summary language W = (Ok res, W').
Proof.
  rewrite greeting_cases.
  destruct (lang_instruction_of language) as [instr|e]; [|eauto].
  destruct (chat_turn_sound self (PStr (greeting_prompt instr assessment_summary))
              (PList []) language W) as (res & W' & _ & Hrun & _).
  eauto.
Qed.

(** One command either raises and leaves the variables alone, or prints one
    response and keeps the instance, or installs a new instance and prints
    the success message. *)
Lemma dispatch_outcome input p (W : World) :
  (exists e, (dispatch input (p, W)).1 = Raise e /\ (dispatch input (p, W)).2.1 = p) \/
  (exists r, (dispatch input (p, W)).1 = Ok tt /\
             (dispatch input (p, W)).2.1 = printed p r) \/
  (exists svc, (dispatch input (p, W)).1 = Ok tt /\
               (dispatch input (p, W)).2.1 =
                 {| rag_service := Some svc;
                    stdout := stdout p ++ [Success_message (py "RAG service initialized")] |}).
Proof.
  unfold dispatch, bind, lift_result, in_world, read_rag_service, raise, print,
    assign_rag_service, printed.
  destruct (py_get input (py "command") PNone) as [command|e]; [|left; eauto].
  destruct (py_eq_str command (py "initialize")).
  { destruct (py_get input (py "careers_json_path") PNone) as [cj|e]; [|left; eauto].
    destruct (py_get input (py "chroma_persist_dir") PNone) as [cd|e]; [|left; eauto].
    destruct (py_get input (py "provider") _) as [pr|e]; [|left; eauto].
    cbn [fst snd].
    destruct (__init__ cj cd pr W) as [[svc|e] W']; [|left; eauto].
    right; right. exists svc. split; reflexivity. }
  destruct (py_eq_str command (py "chat")).
  { destruct (py_get input (py "message") PNone) as [m|e]; [|left; eauto].
    destruct (py_get input (py "chat_history") _) as [h|e]; [|left; eauto].
    destruct (py_get input (py "language") _) as [l|e]; [|left; eauto].
    cbn [fst snd].
    destruct (rag_service p) as [svc|] eqn:Hsvc; [|left; eauto].
    cbn [fst snd].
    destruct (chat svc m h l W) as [[res|e] W']; [|left; eauto].
    right; left. eexists. cbn [fst snd]. rewrite Hsvc. split; reflexivity. }
  destruct (py_eq_str command (py "greeting")).
  { destruct (py_get input (py "assessment_summary") PNone) as [a|e]; [|left; eauto].
    destruct (py_get input (py "language") _) as [l|e]; [|left; eauto].
    cbn [fst snd].
    destruct (rag_service p) as [svc|] eqn:Hsvc; [|left; eauto].
    cbn [fst snd].
    destruct (generate_initial_greeting svc a l W) as [[res|e] W']; [|left; eauto].
    right; left. eexists. cbn [fst snd]. rewrite Hsvc. split; reflexivity. }
  right; left. eexists. split; reflexivity.
Qed.

(** One line: a blank line changes nothing; any other line prints exactly
    one response, and the instance is kept or replaced by a new one. *)
Lemma handle_line_step line p (W : World) :
  exists p' W',
    handle_line line (p, W) = (Ok tt, (p', W')) /\
    (if decide (str_strip line = []) then p' = p
     else exists r, stdout p' = stdout p ++ [r]) /\
    (rag_service p' = rag_service p \/ exists svc, rag_service p' = Some svc).
Proof.
  unfold handle_line.
  destruct (decide (str_strip line = [])) as [Hblank|Hline].
  { rewrite Hblank. exists p, W. split; [reflexivity|]. split; [reflexivity|by left]. }
  destruct (str_strip line) as [|c rest]; [congruence|].
  unfold try_except, bind, lift_result, print.
  destruct (json_loads (c :: rest)) as [input|e].
  2:{ eexists _, _. split; [reflexivity|]. cbn. split; [eauto|by left]. }
  destruct (dispatch_outcome input p W)
    as [(e & Hr & Hs)|[(r & Hr & Hs)|(svc & Hr & Hs)]];
    destruct (dispatch input (p, W)) as [[[]|e'] [p' W']];
    cbn [fst snd] in *; try discriminate; subst p'.
  - eexists _, _. split; [reflexivity|]. cbn. split; [eauto|by left].
  - eexists _, _. split; [reflexivity|]. cbn. split; [eauto|by left].
  - eexists _, _. split; [reflexivity|]. cbn. split; [eauto|right; eauto].
Qed.

Lemma main_loop_steps lines p (W : World) :
  exists p' W',
    main_loop lines (p, W) = (Ok tt, (p', W')) /\
    length (stdout p') = length (stdout p) + length (commands lines) /\
    (rag_service p' = rag_service p \/ exists svc, rag_service p' = Some svc).
Proof.
  revert p W. induction lines as [|line lines IH]; intros p W.
  - exists p, W. cbn. split; [reflexivity|]. split; [lia|by left].
  - destruct (handle_line_step line p W) as (p1 & W1 & Hstep & Hout & Hsvc).
    destruct (IH p1 W1) as (p2 & W2 & Hrest & Hlen & Hsvc2).
    exists p2, W2. cbn [main_loop]. unfold bind. rewrite Hstep, Hrest.
    split; [reflexivity|]. split.
    + rewrite Hlen. unfold commands. rewrite filter_cons.
      destruct (decide (str_strip line = [])) as [Hblank|Hline].
      * subst p1. rewrite decide_False by (intros H; by apply H). lia.
      * destruct Hout as [r Hout]. rewrite Hout, length_app.
        rewrite decide_True by exact Hline. cbn. lia.
    + destruct Hsvc2 as [Hsame|Hnew]; [|by right].
      rewrite Hsame. exact Hsvc.
Qed.

(** X9: [main] never stops on a failure and prints exactly one response for
    every input line that is not blank; blank lines print nothing. *)
Theorem main_answers_each_command lines W :
  (main lines W).1 = Ok tt /\
  length (stdout (main lines W).2.1) = length (commands lines).
Proof.
  unfold main.
  destruct (main_loop_steps lines {| rag_service := None; stdout := [] |} W)
    as (p' & W' & -> & Hlen & _).
  split; [reflexivity|exact Hlen].
Qed.

(** X10: once there is a service instance, no sequence of lines removes it:
    the loop has no transition back to the uninitialized state. *)
Theorem service_stays_initialized lines p W svc0 :
  rag_service p = Some svc0 ->
  exists svc, rag_service (main_loop lines (p, W)).2.1 = Some svc.
Proof.
  intros Hsvc.
  destruct (main_loop_steps lines p W) as (p' & W' & -> & _ & [Hsame|Hnew]).
  - exists svc0. cbn. congruence.
  - exact Hnew.
Qed.

(** X11: a command other than initialize, chat and greeting (a missing
    command counts as None) gets an error response naming it, in any state,
    and nothing else changes. *)
Theorem unknown_command_reported line d p W :
  str_strip line <> [] ->
  json_loads (str_strip line) = Ok (PDict d) ->
  py_eq_str (command_of d) (py "initialize") = false ->
  py_eq_str (command_of d) (py "chat") = false ->
  py_eq_str (command_of d) (py "greeting") = false ->
  handle_line line (p, W) =
    (Ok tt,
     (printed p (Error_message (py "Unknown command: " ++ as_text (command_of d))),
      W)).
Proof.
  intros Hline Hjson Hinit Hchat Hgreet.
  rewrite (handle_line_object _ d) by assumption.
  unfold try_except, dispatch, bind, lift_result, py_get, print, printed.
  fold (command_of d). rewrite Hinit, Hchat, Hgreet. reflexivity.
Qed.

(** X12: a line that is not JSON, or holds a JSON value that is not an
    object, gets an error response (the decoder's message, or the missing
    [get] attribute of the value's type) and nothing else changes. *)
Theorem malformed_line_reported line p W :
  str_strip line <> [] ->
  match json_loads (str_strip line) with
  | Raise e =>
      handle_line line (p, W) = (Ok tt, (printed p (Error_message (exn_str e)), W))
  | Ok (PDict _) => True
  | Ok v =>
      handle_line line (p, W) =
        (Ok tt,
         (printed p
            (Error_message
               (quote (type_name v) ++ py " object has no attribute 'get'")),
          W))
  end.
Proof.
  intros Hline. unfold handle_line.
  destruct (str_strip line) as [|c rest]; [congruence|].
  unfold try_except, bind, lift_result.
  destruct (json_loads (c :: rest)) as [[| | | | | |d]|e];
    first [exact I | reflexivity].
Qed.

(** X13: a successful [initialize] installs the new instance, replacing any
    earlier one, and prints the success message. *)
Theorem initialize_installs_service line d p W svc W' :
  str_strip line <> [] ->
  json_loads (str_strip line) = Ok (PDict d) ->
  d !! py "command" = Some (PStr (py "initialize")) ->
  __init__ (init_args d).1.1 (init_args d).1.2 (init_args d).2 W = (Ok svc, W') ->
  handle_line line (p, W) =
    (Ok tt,
     ({| rag_service := Some svc;
         stdout := stdout p ++ [Success_message (py "RAG service initialized")] |},
      W')).
Proof.
  intros Hline Hjson Hcmd Hinit.
  rewrite (handle_line_object _ d) by assumption.
  unfold try_except, dispatch, bind, lift_result, py_get, in_world,
    assign_rag_service, print.
  rewrite Hcmd. cbn [default from_option id]. rewrite py_eq_str_refl.
  cbn [fst snd]. unfold init_args in Hinit. cbn [fst snd] in Hinit.
  rewrite Hinit. reflexivity.
Qed.

(** X14: with a service instance, a [chat] or [greeting] command always gets
    a success response whose data is the result of the turn, also when the
    turn itself failed, and the instance is kept. *)
Theorem initialized_turn_answers_with_data line d p W svc :
  str_strip line <> [] ->
  json_loads (str_strip line) = Ok (PDict d) ->
  rag_service p = Some svc ->
  (d !! py "command" = Some (PStr (py "chat")) ->
   exists res W',
     chat svc (chat_args d).1.1 (chat_args d).1.2 (chat_args d).2 W = (Ok res, W') /\
     handle_line line (p, W) = (Ok tt, (printed p (Success_data res), W'))) /\
  (d !! py "command" = Some (PStr (py "greeting")) ->
   exists res W',
     generate_initial_greeting svc (greeting_args d).1 (greeting_args d).2 W =
       (Ok res, W') /\
     handle_line line (p, W) = (Ok tt, (printed p (Success_data res), W'))).
Proof.
  intros Hline Hjson Hsvc. rewrite (handle_line_object _ d) by assumption.
  split; intros Hcmd.
  - destruct (chat_turn_sound svc (chat_args d).1.1 (chat_args d).1.2
                (chat_args d).2 W) as (res & W' & _ & Hchat & _).
    exists res, W'. split; [exact Hchat|].
    unfold try_except.
    rewrite (dispatch_chat_initialized d p W W' svc res Hcmd Hsvc Hchat).
    unfold printed. rewrite Hsvc. reflexivity.
  - destruct (greeting_returns svc (greeting_args d).1 (greeting_args d).2 W)
      as (res & W' & Hgreet).
    exists res, W'. split; [exact Hgreet|].
    unfold try_except, dispatch, bind, lift_result, py_get, in_world,
      read_rag_service, print, printed.
    rewrite Hcmd. cbn [default from_option id].
    rewrite greeting_is_not_initialize, greeting_is_not_chat, py_eq_str_refl.
    cbn [fst snd]. rewrite Hsvc. cbn [fst snd].
    unfold greeting_args in Hgreet. cbn [fst snd] in Hgreet. rewrite Hgreet.
    cbn [fst snd]. rewrite Hsvc. reflexivity.
Qed.

End Dispatcher_properties.

Section Turn_properties.
Context `{collaborators : Collaborators}.

Ltac chat_outcome self message chat_history language W :=
  let res := fresh "res" in
  let W' := fresh "W'" in
  let new := fresh "new" in
  let Hrun := fresh "Hrun" in
  let Htrace := fresh "Htrace" in
  let Hturn := fresh "Hturn" in
  destruct (chat_turn_sound self message chat_history language W)
    as (res & W' & new & Hrun & Htrace & Hturn);
  rewrite Hrun; cbn [fst snd];
  try rewrite (turn_events_app _ _ _ Htrace).

Lemma last_n_app_exact {A} (old recent : list A) n :
  length recent = n -> last_n n (old ++ recent) = recent.
Proof.
  intros Hlen. unfold last_n. rewrite length_app, Hlen.
  replace (length old + n - n) with (length old) by lia.
  apply drop_app_length.
Qed.

Lemma chat_depends_on_window self message h1 h2 language W :
  lc_history_of h1 = lc_history_of h2 ->
  chat self message h1 language W = chat self message h2 language W.
Proof. intros H. rewrite !chat_cases. cbv zeta. rewrite H. reflexivity. Qed.

(** X15: elements of the history that lie before the last ten have no
    effect at all on a chat turn, well-formed or not. *)
Theorem chat_ignores_history_before_window self message old recent language W :
  length recent = 10 ->
  chat self message (PList (old ++ recent)) language W =
    chat self message (PList recent) language W.
Proof.
  intros Hlen. apply chat_depends_on_window.
  unfold lc_history_of, py_iter_last, rbind.
  rewrite (last_n_app_exact old recent 10 Hlen).
  rewrite last_n_short by lia. reflexivity.
Qed.

(** X16: a history that is not a list makes the turn fail before any
    collaborator is called (null, boolean, number, object, non-empty text),
    except the empty text, which is taken as an empty history. *)
Theorem chat_history_must_be_list self message chat_history language W :
  match chat_history with
  | PList _ => True
  | PStr [] =>
      chat self message chat_history language W =
        chat self message (PList []) language W
  | _ =>
      exists msg,
        chat self message chat_history language W =
          (Ok {| response := None; sources := []; error := Some msg |}, W)
  end.
Proof.
  destruct chat_history as [| | | |s| |d]; try exact I;
    try (rewrite chat_cases; cbv zeta; cbn [lc_history_of py_iter_last rbind];
         eexists; reflexivity).
  destruct s as [|c s].
  - apply chat_depends_on_window. reflexivity.
  - rewrite chat_cases. cbv zeta.
    assert (Hraise : exists e, lc_history_of (PStr (c :: s)) = Raise e).
    { unfold lc_history_of, py_iter_last, rbind.
      pose proof (last_n_length 10 (c :: s)) as Hle.
      destruct (last_n 10 (c :: s)) as [|c' s'] eqn:Hw.
      - unfold last_n in Hw. apply (f_equal length) in Hw.
        rewrite length_drop in Hw. cbn in Hw. lia.
      - cbn. eexists. reflexivity. }
    destruct Hraise as [e ->]. eexists. reflexivity.
Qed.

Lemma retrieval_count_cons ev evs :
  retrieval_count (ev :: evs) =
    (if is_retrieve ev then 1 else 0) + retrieval_count evs.
Proof.
  unfold retrieval_count. rewrite filter_cons.
  destruct (is_retrieve ev); [rewrite decide_True by reflexivity
                             |rewrite decide_False by discriminate]; reflexivity.
Qed.

Lemma generation_count_cons ev evs :
  generation_count (ev :: evs) =
    (if is_retrieve ev then 0 else 1) + generation_count evs.
Proof.
  unfold generation_count. rewrite filter_cons.
  destruct (is_retrieve ev); [rewrite decide_False by discriminate
                             |rewrite decide_True by reflexivity]; reflexivity.
Qed.

(** X17: a chat turn asks the retriever at most twice and the model at most
    once, and asks the model only after both retrievals have succeeded, as
    the last call of the turn. *)
Theorem chat_call_discipline self message chat_history language W :
  retrieval_count
    (turn_events W (chat self message chat_history language W).2) <= 2 /\
  generation_count
    (turn_events W (chat self message chat_history language W).2) <= 1 /\
  forall req out,
    EvGenerate req out ∈
      turn_events W (chat self message chat_history language W).2 ->
    exists docs docs',
      turn_events W (chat self message chat_history language W).2 =
        [EvRetrieve (as_text message) (Ok docs);
         EvRetrieve (as_text message) (Ok docs');
         EvGenerate req out].
Proof.
  chat_outcome self message chat_history language W.
  inversion Hturn; subst;
    rewrite ?retrieval_count_cons, ?generation_count_cons;
    change (retrieval_count []) with 0; change (generation_count []) with 0;
    cbn [is_retrieve Nat.add];
    (split; [lia|]); (split; [lia|]); intros rq ot Hin;
    repeat match goal with
      | H : _ ∈ _ :: _ |- _ => apply elem_of_cons in H as [H|H]
      | H : _ ∈ [] |- _ => by apply not_elem_of_nil in H
      | H : EvGenerate _ _ = EvRetrieve _ _ |- _ => discriminate H
      | H : EvGenerate _ _ = EvGenerate _ _ |- _ => injection H as -> ->
      end;
    eexists _, _; reflexivity.
Qed.

(** X18: the message, coerced to text, is the query of every retrieval of
    the turn and the question of its generation request, and the language
    value reaches the request as it was given, whatever it is. *)
Theorem chat_passes_message_and_language self message chat_history language W :
  Forall (carries (as_text message) language)
    (turn_events W (chat self message chat_history language W).2).
Proof.
  chat_outcome self message chat_history language W.
  inversion Hturn; subst; repeat constructor.
Qed.

Lemma as_text_str (s : pystr) : as_text (PStr s) = s.
Proof. reflexivity. Qed.

Lemma text_turn_events_carry self prompt chat_history language W :
  Forall (carries prompt language)
    (turn_events W (chat self (PStr prompt) chat_history language W).2).
Proof.
  chat_outcome self (PStr prompt) chat_history language W.
  inversion Hturn; subst; repeat constructor.
Qed.

(** X19: a greeting in a language outside the table puts the English
    instruction into the prompt, between the fixed opening text and the
    summary, but still passes the given code on as the language of the
    generation request. *)
Theorem greeting_unknown_code_keeps_language
    self assessment_summary code W :
  code ∉ [py "en"; py "hi"; py "te"; py "ta"; py "mr"; py "bn"] ->
  Forall (carries
            (greeting_preamble ++ english_instruction ++ nl ++ nl
               ++ py "Assessment Summary:" ++ nl
               ++ as_text assessment_summary ++ greeting_closing)
            (PStr code))
    (turn_events W
       (generate_initial_greeting self assessment_summary (PStr code) W).2).
Proof.
  intros Hcode. rewrite greeting_cases.
  assert (Hinstr : lang_instruction_of (PStr code) = Ok english_instruction).
  { unfold lang_instruction_of, lang_instructions.
    rewrite (not_elem_of_list_to_map_1 _ code); [reflexivity|exact Hcode]. }
  rewrite Hinstr. rewrite <- greeting_prompt_template.
  apply text_turn_events_carry.
Qed.

(** X20: a turn that fails lists no sources, even when a retrieval had
    already succeeded: sources are only ever returned with a response. *)
Theorem chat_sources_only_with_response self message chat_history language W :
  exists res,
    (chat self message chat_history language W).1 = Ok res /\
    (response res = None -> sources res = []) /\
    (sources res <> [] -> is_Some (response res)).
Proof.
  chat_outcome self message chat_history language W.
  exists res. split; [reflexivity|].
  inversion Hturn; subst; cbn; split; eauto; try congruence.
Qed.

End Turn_properties.

(** * The further properties on the test doubles *)

Section Further_examples.
#[local] Existing Instance Toy.doubles.

Lemma json_to_docs_of_records_witness :
  mapM record_fields [Toy.doctor_record; Toy.nurse_record] =
    Some [Toy.doctor_fields; Toy.nurse_fields] /\
  _json_to_docs (PList [Toy.doctor_record; Toy.nurse_record]) =
    Ok (concat (documents_of_record <$> [Toy.doctor_fields; Toy.nurse_fields])).
Proof.
  assert (H : mapM record_fields [Toy.doctor_record; Toy.nurse_record] =
                Some [Toy.doctor_fields; Toy.nurse_fields])
    by (vm_compute; reflexivity).
  split; [exact H|]. exact (json_to_docs_of_records _ _ H).
Defined.

Lemma json_to_docs_chunk_indices_contiguous_witness :
  record_fields Toy.doctor_record = Some Toy.doctor_fields /\
  exists docs,
    _json_to_docs (PList [Toy.doctor_record]) = Ok docs /\
    length docs = 1.
Proof.
  assert (H : record_fields Toy.doctor_record =
                Some (PInt 1, PStr (py "Doctor"),
                      PStr (py "Doctors diagnose and treat illness.")))
    by (vm_compute; reflexivity).
  split; [exact H|].
  destruct (json_to_docs_chunk_indices_contiguous _ _ _ _ H)
    as (docs & Hdocs & Hlen & _).
  exists docs. split; [exact Hdocs|]. rewrite Hlen. vm_compute. reflexivity.
Defined.

Lemma json_to_docs_stops_at_malformed_record_witness :
  mapM record_fields [Toy.doctor_record] = Some [Toy.doctor_fields] /\
  Toy.untitled !! py "title" = None /\
  _json_to_docs
    (PList ([Toy.doctor_record] ++ PDict Toy.untitled :: [Toy.nurse_record])) =
    Raise (KeyError (quote (py "title"))).
Proof.
  assert (H : mapM record_fields [Toy.doctor_record] = Some [Toy.doctor_fields])
    by (vm_compute; reflexivity).
  assert (Htitle : Toy.untitled !! py "title" = None) by (vm_compute; reflexivity).
  split; [exact H|]. split; [exact Htitle|].
  destruct (json_to_docs_stops_at_malformed_record _ _ Toy.untitled
              [Toy.nurse_record] H) as [Hstop _].
  exact (Hstop Htitle).
Defined.

Lemma init_vectordb_builds_from_ingestion_witness :
  persist_dir_populated (PStr (py "chroma_data_full")) (outside Toy.quiet) =
    (Ok false, outside Toy.quiet) /\
  load_json_file (PStr (py "careers_cleaned.json")) (outside Toy.quiet) =
    (Ok Toy.corpus, outside Toy.quiet) /\
  _init_vectordb (PStr (py "careers_cleaned.json")) (PStr (py "chroma_data_full"))
    tt Toy.quiet =
    match _json_to_docs Toy.corpus with
    | Ok docs =>
        outside_call
          (Chroma_from_documents docs tt (PStr (py "chroma_data_full")))
          {| outside := outside Toy.quiet; trace := trace Toy.quiet |}
    | Raise e =>
        (Raise e, {| outside := outside Toy.quiet; trace := trace Toy.quiet |})
    end.
Proof.
  split; [reflexivity|]. split; [reflexivity|].
  exact (init_vectordb_builds_from_ingestion
           (PStr (py "careers_cleaned.json")) (PStr (py "chroma_data_full")) tt
           Toy.quiet (outside Toy.quiet) Toy.corpus (outside Toy.quiet)
           eq_refl eq_refl).
Defined.

Lemma init_rejects_provider_after_index_witness :
  py_eq_str (PStr (py "openai")) (py "groq") = false /\
  py_eq_str (PStr (py "openai")) (py "google") = false /\
  __init__ (PStr (py "careers_cleaned.json")) (PStr (py "chroma_data_full"))
    (PStr (py "openai")) Toy.quiet =
    (Raise (ValueError (py "Unknown provider: " ++ as_text (PStr (py "openai")))),
     Toy.quiet).
Proof.
  assert (Hgroq : py_eq_str (PStr (py "openai")) (py "groq") = false)
    by (vm_compute; reflexivity).
  assert (Hgoogle : py_eq_str (PStr (py "openai")) (py "google") = false)
    by (vm_compute; reflexivity).
  split; [exact Hgroq|]. split; [exact Hgoogle|].
  exact (init_rejects_provider_after_index
           (PStr (py "careers_cleaned.json")) (PStr (py "chroma_data_full"))
           (PStr (py "openai")) Toy.quiet tt (outside Toy.quiet) tt Toy.quiet
           eq_refl eq_refl Hgroq Hgoogle).
Defined.

Lemma service_stays_initialized_witness :
  exists svc,
    rag_service
      (main_loop [Toy.init_line "openai"; Toy.chat_line]
         ({| rag_service := Some Toy.service; stdout := [] |}, Toy.quiet)).2.1 =
      Some svc.
Proof.
  exact (service_stays_initialized [Toy.init_line "openai"; Toy.chat_line]
           {| rag_service := Some Toy.service; stdout := [] |} Toy.quiet
           Toy.service eq_refl).
Defined.

Lemma malformed_line_reported_witness :
  str_strip (py "garbage") <> [] /\
  handle_line (py "garbage") ({| rag_service := None; stdout := [] |}, Toy.quiet) =
    (Ok tt,
     (printed {| rag_service := None; stdout := [] |}
        (Error_message (exn_str Toy.not_json)),
      Toy.quiet)).
Proof.
  assert (Hline : str_strip (py "garbage") <> []) by (vm_compute; discriminate).
  split; [exact Hline|].
  pose proof (malformed_line_reported (py "garbage")
                {| rag_service := None; stdout := [] |} Toy.quiet Hline) as H.
  assert (Hloads : json_loads (str_strip (py "garbage")) = Raise Toy.not_json)
    by (vm_compute; reflexivity).
  rewrite Hloads in H. exact H.
Defined.

Lemma initialize_installs_service_witness :
  exists svc,
    __init__ (init_args (Toy.init_fields "google")).1.1
      (init_args (Toy.init_fields "google")).1.2
      (init_args (Toy.init_fields "google")).2 Toy.quiet = (Ok svc, Toy.quiet) /\
    handle_line (Toy.init_line "google")
      ({| rag_service := None; stdout := [] |}, Toy.quiet) =
      (Ok tt,
       ({| rag_service := Some svc;
           stdout := [] ++ [Success_message (py "RAG service initialized")] |},
        Toy.quiet)).
Proof.
  eexists. 
  assert (Hline : str_strip (Toy.init_line "google") <> [])
    by (vm_compute; discriminate).
  assert (Hjson : json_loads (str_strip (Toy.init_line "google")) =
                    Ok (PDict (Toy.init_fields "google")))
    by (vm_compute; reflexivity).
  assert (Hcmd : Toy.init_fields "google" !! py "command" =
                   Some (PStr (py "initialize")))
    by (vm_compute; reflexivity).
  split; [reflexivity|].
  exact (initialize_installs_service (Toy.init_line "google")
           (Toy.init_fields "google") {| rag_service := None; stdout := [] |}
           Toy.quiet _ Toy.quiet Hline Hjson Hcmd eq_refl).
Defined.

Lemma initialized_turn_answers_with_data_witness :
  Toy.loads (str_strip Toy.greeting_line) =
    Ok (Toy.obj [("command", "greeting");
                 ("assessment_summary", "Realistic, Investigative");
                 ("language", "hi")]%string) /\
  exists res W',
    handle_line Toy.greeting_line
      ({| rag_service := Some Toy.service; stdout := [] |}, Toy.quiet) =
      (Ok tt,
       (printed {| rag_service := Some Toy.service; stdout := [] |}
          (Success_data res), W')).
Proof.
  split; [vm_compute; reflexivity|].
  assert (Hline : str_strip Toy.greeting_line <> []) by (vm_compute; discriminate).
  assert (Hjson : json_loads (str_strip Toy.greeting_line) =
                    Ok (PDict (list_to_map
                                 [ (py "command", PStr (py "greeting"));
                                   (py "assessment_summary",
                                    PStr (py "Realistic, Investigative"));
                                   (py "language", PStr (py "hi")) ])))
    by (vm_compute; reflexivity).
  destruct (initialized_turn_answers_with_data Toy.greeting_line _
              {| rag_service := Some Toy.service; stdout := [] |} Toy.quiet
              Toy.service Hline Hjson eq_refl) as [_ Hgreeting].
  destruct Hgreeting as (res & W' & _ & Hprinted); [vm_compute; reflexivity|].
  exists res, W'. exact Hprinted.
Defined.

Lemma chat_ignores_history_before_window_witness :
  length Toy.ten_questions = 10 /\
  chat Toy.service Toy.question (PList ([PDict Toy.no_role] ++ Toy.ten_questions))
    (PStr (py "en")) Toy.quiet =
    chat Toy.service Toy.question (PList Toy.ten_questions) (PStr (py "en"))
      Toy.quiet.
Proof.
  split; [reflexivity|].
  apply (chat_ignores_history_before_window Toy.service Toy.question
           [PDict Toy.no_role] Toy.ten_questions (PStr (py "en")) Toy.quiet).
  reflexivity.
Defined.

Lemma greeting_unknown_code_keeps_language_witness :
  (py "fr" ∉ [py "en"; py "hi"; py "te"; py "ta"; py "mr"; py "bn"]) /\
  Forall (carries
            (greeting_preamble ++ english_instruction ++ nl ++ nl
               ++ py "Assessment Summary:" ++ nl
               ++ as_text (PStr (py "Realistic")) ++ greeting_closing)
            (PStr (py "fr")))
    (turn_events Toy.quiet
       (generate_initial_greeting Toy.service (PStr (py "Realistic"))
          (PStr (py "fr")) Toy.quiet).2).
Proof.
  assert (Hcode : py "fr" ∉ [py "en"; py "hi"; py "te"; py "ta"; py "mr"; py "bn"]).
  { refine (bool_decide_unpack _ _). vm_compute. exact I. }
  split; [exact Hcode|].
  exact (greeting_unknown_code_keeps_language Toy.service (PStr (py "Realistic"))
           (py "fr") Toy.quiet Hcode).
Defined.

Lemma unsupported_provider_raises_witness :
  py_eq_str (PStr (py "openai")) (py "groq") = false /\
  py_eq_str (PStr (py "openai")) (py "google") = false /\
  exists e W',
    __init__ (PStr (py "careers_cleaned.json")) (PStr (py "chroma_data_full"))
      (PStr (py "openai")) Toy.quiet = (Raise e, W').
Proof.
  assert (Hgroq : py_eq_str (PStr (py "openai")) (py "groq") = false)
    by (vm_compute; reflexivity).
  assert (Hgoogle : py_eq_str (PStr (py "openai")) (py "google") = false)
    by (vm_compute; reflexivity).
  split; [exact Hgroq|]. split; [exact Hgoogle|].
  exact (unsupported_provider_raises (PStr (py "careers_cleaned.json"))
           (PStr (py "chroma_data_full")) (PStr (py "openai")) Toy.quiet
           Hgroq Hgoogle).
Defined.

Lemma json_to_docs_chunk_index_int_witness :
  _json_to_docs Toy.corpus = Ok [Toy.doctor_doc] /\
  Forall chunk_index_stored_as_int [Toy.doctor_doc].
Proof.
  assert (H : _json_to_docs Toy.corpus = Ok [Toy.doctor_doc])
    by (vm_compute; reflexivity).
  split; [exact H|]. exact (_json_to_docs_chunk_index_int _ _ H).
Defined.

End Further_examples.

Section Curated_examples.
#[local] Existing Instance Toy.curated.

Lemma json_to_docs_skips_chunkless_record_witness :
  Toy.blank !! py "title" = Some (PStr []) /\
  Toy.blank !! py "content" = Some (PStr []) /\
  record_chunks (PStr []) (PStr []) = [] /\
  _json_to_docs
    (PList ([Toy.doctor_record] ++ PDict Toy.blank :: [Toy.nurse_record])) =
    _json_to_docs (PList ([Toy.doctor_record] ++ [Toy.nurse_record])).
Proof.
  assert (Htitle : Toy.blank !! py "title" = Some (PStr []))
    by (vm_compute; reflexivity).
  assert (Hcontent : Toy.blank !! py "content" = Some (PStr []))
    by (vm_compute; reflexivity).
  assert (Hchunks : record_chunks (PStr []) (PStr []) = [])
    by (vm_compute; reflexivity).
  split; [exact Htitle|]. split; [exact Hcontent|]. split; [exact Hchunks|].
  exact (json_to_docs_skips_chunkless_record [Toy.doctor_record] Toy.blank
           [Toy.nurse_record] _ _ Htitle Hcontent Hchunks).
Defined.

Lemma init_vectordb_ignores_corpus_when_persisted_witness :
  persist_dir_populated (PStr (py "chroma_data_full")) (outside Toy.still) =
    (Ok true, outside Toy.still) /\
  _init_vectordb (PStr (py "careers_cleaned.json")) (PStr (py "chroma_data_full"))
    tt Toy.still =
    _init_vectordb PNone (PStr (py "chroma_data_full")) tt Toy.still.
Proof.
  assert (Hpop : persist_dir_populated (PStr (py "chroma_data_full"))
                   (outside Toy.still) = (Ok true, outside Toy.still))
    by (vm_compute; reflexivity).
  split; [exact Hpop|].
  destruct (init_vectordb_ignores_corpus_when_persisted
              (PStr (py "careers_cleaned.json")) PNone
              (PStr (py "chroma_data_full")) (tt : @Embeddings Toy.curated)
              Toy.still _ Hpop) as [Hsame _].
  exact Hsame.
Defined.

Lemma unknown_command_reported_witness :
  json_loads (str_strip Toy.reset_line) = Ok (PDict Toy.reset_fields) /\
  handle_line Toy.reset_line ({| rag_service := None; stdout := [] |}, Toy.still) =
    (Ok tt,
     (printed {| rag_service := None; stdout := [] |}
        (Error_message
           (py "Unknown command: " ++ as_text (command_of Toy.reset_fields))),
      Toy.still)).
Proof.
  assert (Hline : str_strip Toy.reset_line <> []) by (vm_compute; discriminate).
  assert (Hjson : json_loads (str_strip Toy.reset_line) =
                    Ok (PDict Toy.reset_fields))
    by (vm_compute; reflexivity).
  split; [exact Hjson|].
  apply (unknown_command_reported Toy.reset_line Toy.reset_fields
           {| rag_service := None; stdout := [] |} Toy.still Hline Hjson);
    vm_compute; reflexivity.
Defined.

End Curated_examples.
